(** * amazon.ionbenchmark.benchmark_runner

    A shallow embedding of [benchmark_runner.py]: the selector
    [_create_test_fun], the memory profiler [_trace_memory_allocation] and
    the driver [run_benchmark], over an explicit model of the interpreter
    state they act on (collector switch, tracemalloc, monotonic clock, file
    system, temporary files) and of the collaborators they call
    (the loader/dumper, [timeit.Timer]). Every file operation and every
    call of the loader/dumper is paid for in time and in allocated bytes. *)

From Stdlib Require Import ZArith NArith QArith String List Bool Lia.
Import ListNotations.
Local Open Scope string_scope.
Local Open Scope Z_scope.
Local Open Scope list_scope.

Definition bytes := list Byte.byte.

(** ** Exceptions and outcomes *)

Inductive PyExn : Type :=
| NotImplementedError (match_arg : list string)
    (* f"Argument combination not supported: {match_arg}" *)
| FileNotFoundError (path : string)
| CollaboratorError (msg : string).

(** Outcome of a computation: a value, a raised exception, or a loop of the
    model that was cut by its fuel ([while True] in [autorange]). *)
Inductive Res (A : Type) : Type :=
| Ok (a : A)
| Raise (e : PyExn)
| OutOfFuel.
Arguments Ok {A} a.
Arguments Raise {A} e.
Arguments OutOfFuel {A}.

(** ** Observable events

    The state carries a ghost log of what the process did, oldest first.
    [EvInvoke] marks a call of the test function and records the collector
    and tracing switches as they were at the call; [EvTimer] is a reading
    of the clock, with the collector switch as it was then. *)

Inductive Op : Type :=
| OpLoads | OpDumps | OpLoad | OpDump (tmp : nat).

Inductive Event : Type :=
| EvGcDisable | EvGcEnable
| EvTraceStart | EvGetTraced | EvTraceStop
| EvTimer (t : Z) (gc : bool)
| EvInvoke (gc : bool) (tracing : bool)
| EvOpen (path : string) | EvRead (path : string) | EvClose (path : string)
| EvTmpOpen (tmp : nat) (binary : bool) | EvTmpClose (tmp : nat)
| EvCall (op : Op).

(** Events a test function body may produce: file traffic and the one
    collaborator call. *)
Definition body_event (e : Event) : bool :=
  match e with
  | EvOpen _ | EvRead _ | EvClose _ | EvTmpOpen _ _ | EvTmpClose _ | EvCall _ => true
  | _ => false
  end.

(** ** Timed samples read off a log

    A sample is what lies between two consecutive readings of the timer:
    the collector state at the first reading, at each invocation inside and
    at the second reading, and the elapsed time. *)

Record Sample : Type := mkSample {
  s_gc_start : bool;
  s_calls : list bool;
  s_gc_stop : bool;
  s_elapsed : Z
}.

Definition ScanState : Type := option (Z * bool * list bool).

Definition scan_step (st : list Sample * ScanState) (e : Event)
  : list Sample * ScanState :=
  match e, snd st with
  | EvTimer t gc, None => (fst st, Some (t, gc, []))
  | EvTimer t gc, Some (t0, gc0, calls) =>
      (fst st ++ [mkSample gc0 calls gc (t - t0)], None)
  | EvInvoke gc _, Some (t0, gc0, calls) => (fst st, Some (t0, gc0, calls ++ [gc]))
  | _, _ => st
  end.

Definition scan (s : ScanState) (l : list Event) : list Sample * ScanState :=
  fold_left scan_step l ([], s).

Definition samples_of (l : list Event) : list Sample := fst (scan None l).

Definition count_invocations (l : list Event) : nat :=
  length (filter (fun e => match e with EvInvoke _ _ => true | _ => false end) l).

(** ** What a step costs

    Every step that runs in the operating system or in the loader/dumper
    takes time on the monotonic clock and allocates: [c_high] is how far
    its allocations rise above the level at its entry, [c_net] what it
    leaves allocated (or, if negative, frees) at its exit. [account] is
    what tracemalloc makes of it: the pair is (current, peak). *)

Record Cost : Type := mkCost { c_ns : N; c_high : N; c_net : Z }.

Definition account (c : Cost) (m : N * N) : N * N :=
  (Z.to_N (Z.of_N (fst m) + c_net c), N.max (snd m) (fst m + c_high c)).

Definition traced_after (m : N * N) (l : list Cost) : N * N :=
  fold_left (fun m c => account c m) l m.

(** The file operations of the module. *)
Inductive IoOp : Type :=
| IoOpen (path : string) | IoRead (path : string) | IoClose (path : string)
| IoTmpOpen (binary : bool) | IoTmpClose (tmp : nat).

(** ** What the module imports

    [amazon.ionbenchmark.Format] classifies a format identifier; the
    module-level constant [_pypy] is
    [platform.python_implementation() == 'PyPy']. *)

Class Format : Type := {
  format_is_binary : string -> bool;
  format_is_ion : string -> bool
}.

Class Platform : Type := { _pypy : bool }.

Section Runner.

(** [X] is the private state of the loader/dumper collaborator, [Value] the
    type of Python objects it loads and dumps. *)
Context {X Value : Type} {_format : Format} {platform : Platform}.

(** ** The interpreter state *)

Record World : Type := mkWorld {
  gc_on : bool;                      (* gc.isenabled() *)
  tracing : bool;                    (* tracemalloc.is_tracing() *)
  traced_cur : N;                    (* tracemalloc.get_traced_memory()[0] *)
  traced_peak : N;                   (* tracemalloc.get_traced_memory()[1] *)
  now : Z;                           (* time.perf_counter_ns() *)
  files : string -> option bytes;    (* readable files, by path *)
  io_cost : IoOp -> X -> Cost;       (* what a file operation costs, given
                                        what the collaborator did so far *)
  next_tmp : nat;                    (* supply of temporary-file names *)
  live_tmps : list nat;              (* temporary files that exist *)
  ext : X;                           (* state of the loader/dumper *)
  trace : list Event;
  ledger : list Cost                 (* the costs paid so far, oldest first *)
}.

Definition log (e : Event) (w : World) : World :=
  mkWorld (gc_on w) (tracing w) (traced_cur w) (traced_peak w) (now w)
          (files w) (io_cost w) (next_tmp w) (live_tmps w) (ext w)
          (trace w ++ [e]) (ledger w).

Definition set_gc (b : bool) (w : World) : World :=
  mkWorld b (tracing w) (traced_cur w) (traced_peak w) (now w)
          (files w) (io_cost w) (next_tmp w) (live_tmps w) (ext w)
          (trace w) (ledger w).

Definition set_traced (on : bool) (cur peak : N) (w : World) : World :=
  mkWorld (gc_on w) on cur peak (now w)
          (files w) (io_cost w) (next_tmp w) (live_tmps w) (ext w)
          (trace w) (ledger w).

Definition set_tmps (next : nat) (live : list nat) (w : World) : World :=
  mkWorld (gc_on w) (tracing w) (traced_cur w) (traced_peak w) (now w)
          (files w) (io_cost w) next live (ext w) (trace w) (ledger w).

Definition set_ext (x : X) (w : World) : World :=
  mkWorld (gc_on w) (tracing w) (traced_cur w) (traced_peak w) (now w)
          (files w) (io_cost w) (next_tmp w) (live_tmps w) x
          (trace w) (ledger w).

(** Paying a cost: the clock advances, tracemalloc (if tracing) accounts
    for the allocations, the ledger keeps the entry. *)
Definition spend (c : Cost) (w : World) : World :=
  mkWorld (gc_on w) (tracing w)
          (if tracing w then fst (account c (traced_cur w, traced_peak w))
           else traced_cur w)
          (if tracing w then snd (account c (traced_cur w, traced_peak w))
           else traced_peak w)
          (now w + Z.of_N (c_ns c))
          (files w) (io_cost w) (next_tmp w) (live_tmps w) (ext w)
          (trace w) (ledger w ++ [c]).

(** Paying for a file operation. *)
Definition charge (op : IoOp) (w : World) : World :=
  spend (io_cost w op (ext w)) w.

(** ** The computation monad: state and exceptions *)

Definition M (A : Type) : Type := World -> Res A * World.

Definition ret {A} (a : A) : M A := fun w => (Ok a, w).

Definition raise {A} (e : PyExn) : M A := fun w => (Raise e, w).

Definition bind {A B} (m : M A) (k : A -> M B) : M B :=
  fun w =>
    match m w with
    | (Ok a, w') => k a w'
    | (Raise e, w') => (Raise e, w')
    | (OutOfFuel, w') => (OutOfFuel, w')
    end.

(** [try: body finally: cleanup], and the exit of a [with] block. *)
Definition finally {A} (body : M A) (cleanup : M unit) : M A :=
  fun w =>
    match body w with
    | (Ok a, w') =>
        match cleanup w' with
        | (Ok _, w'') => (Ok a, w'')
        | (Raise e, w'') => (Raise e, w'')
        | (OutOfFuel, w'') => (OutOfFuel, w'')
        end
    | (Raise e, w') =>
        match cleanup w' with
        | (Ok _, w'') => (Raise e, w'')
        | (Raise e', w'') => (Raise e', w'')
        | (OutOfFuel, w'') => (OutOfFuel, w'')
        end
    | (OutOfFuel, w') => (OutOfFuel, w')
    end.

Notation "x <- m ;; k" := (bind m (fun x => k))
  (at level 61, m at next level, right associativity).
Notation "' pat <- m ;; k" := (bind m (fun x => match x with pat => k end))
  (at level 61, pat pattern, m at next level, right associativity).

(** ** Interpreter primitives *)

(** [gc.disable()], [gc.enable()], [gc.isenabled()] *)
Definition gc_disable : M unit :=
  fun w => (Ok tt, log EvGcDisable (set_gc false w)).

Definition gc_enable : M unit :=
  fun w => (Ok tt, log EvGcEnable (set_gc true w)).

Definition gc_isenabled : M bool := fun w => (Ok (gc_on w), w).

(** [tracemalloc.start()] does nothing when tracing is already on;
    otherwise tracing begins with both counters at zero. *)
Definition tracemalloc_start : M unit :=
  fun w => (Ok tt, log EvTraceStart (if tracing w then w else set_traced true 0 0 w)).

(** [tracemalloc.get_traced_memory()]: the pair (current, peak). *)
Definition tracemalloc_get_traced_memory : M (N * N) :=
  fun w => (Ok (if tracing w then (traced_cur w, traced_peak w) else (0%N, 0%N)),
            log EvGetTraced w).

(** [tracemalloc.stop()] also clears the counters. *)
Definition tracemalloc_stop : M unit :=
  fun w => (Ok tt, log EvTraceStop (set_traced false 0 0 w)).

(** [time.perf_counter_ns()] *)
Definition perf_counter_ns : M Z :=
  fun w => (Ok (now w), log (EvTimer (now w) (gc_on w)) w).

(** Calling a Python callable of no argument. *)
Definition invoke {A} (f : M A) : M A :=
  fun w => f (log (EvInvoke (gc_on w) (tracing w)) w).

(** ** Files *)

Record File : Type := mkFile { f_path : string; f_content : bytes }.

Definition f_read (f : File) : M bytes :=
  fun w => (Ok (f_content f),
            charge (IoRead (f_path f)) (log (EvRead (f_path f)) w)).

Definition f_close (f : File) : M unit :=
  fun w => (Ok tt, charge (IoClose (f_path f)) (log (EvClose (f_path f)) w)).

(** [with open(path, 'rb') as f: body]. Opening, like reading and closing,
    is paid for. An attempt that fails is charged nothing: it raises before
    there is a file, and no reading of the clock or of tracemalloc follows
    it in this module, as nothing here catches the exception. *)
Definition with_open_rb {A} (path : string) (body : File -> M A) : M A :=
  fun w =>
    let w1 := log (EvOpen path) w in
    match files w1 path with
    | None => (Raise (FileNotFoundError path), w1)
    | Some content =>
        let f := mkFile path content in
        finally (body f) (f_close f) (charge (IoOpen path) w1)
    end.

Record TmpFile : Type := mkTmp { tmp_id : nat; tmp_binary : bool }.

(** [tempfile.TemporaryFile(mode=...)]: a new file under a name never handed
    out before; [tmp_close] is its [__exit__], which deletes it. *)
Definition TemporaryFile (binary : bool) : M TmpFile :=
  fun w =>
    let id := next_tmp w in
    (Ok (mkTmp id binary),
     charge (IoTmpOpen binary)
       (log (EvTmpOpen id binary) (set_tmps (S id) (id :: live_tmps w) w))).

Definition tmp_close (f : TmpFile) : M unit :=
  fun w =>
    (Ok tt,
     charge (IoTmpClose (tmp_id f))
       (log (EvTmpClose (tmp_id f))
          (set_tmps (next_tmp w) (remove Nat.eq_dec (tmp_id f) (live_tmps w)) w))).

(** [with tempfile.TemporaryFile(mode=...) as f: body] *)
Definition with_TemporaryFile {A} (binary : bool) (body : TmpFile -> M A) : M A :=
  f <- TemporaryFile binary ;;
  finally (body f) (tmp_close f).

(** ** The loader/dumper collaborator

    One call answers with a value or an exception, takes some time on the
    monotonic clock and has some peak of allocated bytes; it may depend on
    and change the collaborator's own state, and nothing else. *)

Record Reply : Type := mkReply {
  outcome : Value + PyExn;
  elapsed_ns : N;
  peak_bytes : N
}.

Record LoaderDumper : Type := mkLoaderDumper {
  loads : bytes -> X -> Reply * X;
  dumps : Value -> X -> Reply * X;
  load : File -> X -> Reply * X;
  dump : Value -> TmpFile -> X -> Reply * X
}.

(** What a reply costs: its allocations are released with the value it
    returns, which every caller here drops. *)
Definition reply_cost (r : Reply) : Cost :=
  mkCost (elapsed_ns r) (peak_bytes r) 0.

Definition call (op : Op) (f : X -> Reply * X) : M Value :=
  fun w =>
    let (r, x') := f (ext w) in
    (match outcome r with inl v => Ok v | inr e => Raise e end,
     log (EvCall op) (spend (reply_cost r) (set_ext x' w))).

(** ** benchmark_spec.BenchmarkSpec, through its accessors *)

Record BenchmarkSpec : Type := mkBenchmarkSpec {
  get_io_type : string;
  get_command : string;
  get_api : string;
  get_input_file : string;
  get_data_object : Value;
  get_format : string;
  get_warmups : Z;
  get_iterations : Z;
  py_gc_disabled : bool;              (* benchmark_spec["py_gc_disabled"] *)
  get_loader_dumper : LoaderDumper
}.

(** ** class BenchmarkResult *)

Record BenchmarkResult : Type := mkBenchmarkResult {
  timings : list Z;
  batch_size : Z;
  peak_memory_usage : option Z        (* None is Python's None *)
}.

(** ** _create_test_fun *)

Definition match_arg_eq : forall a b : list string, {a = b} + {a <> b} :=
  list_eq_dec string_dec.

Definition _create_test_fun (benchmark_spec : BenchmarkSpec) : M (M Value) :=
  let loader_dumper := get_loader_dumper benchmark_spec in
  let match_arg := [get_io_type benchmark_spec; get_command benchmark_spec;
                    get_api benchmark_spec] in
  if match_arg_eq match_arg ["buffer"; "read"; "load_dump"] then
    buffer <- with_open_rb (get_input_file benchmark_spec) (fun f => f_read f) ;;
    ret (call OpLoads (loads loader_dumper buffer))
  else if match_arg_eq match_arg ["buffer"; "write"; "load_dump"] then
    let data_obj := get_data_object benchmark_spec in
    ret (call OpDumps (dumps loader_dumper data_obj))
  else if match_arg_eq match_arg ["file"; "read"; "load_dump"] then
    let data_file := get_input_file benchmark_spec in
    ret (with_open_rb data_file (fun f => call OpLoad (load loader_dumper f)))
  else if match_arg_eq match_arg ["file"; "write"; "load_dump"] then
    let data_obj := get_data_object benchmark_spec in
    let data_format := get_format benchmark_spec in
    if format_is_binary data_format || format_is_ion data_format then
      ret (with_TemporaryFile true
             (fun f => call (OpDump (tmp_id f)) (dump loader_dumper data_obj f)))
    else
      ret (with_TemporaryFile false
             (fun f => call (OpDump (tmp_id f)) (dump loader_dumper data_obj f)))
  else
    raise (NotImplementedError match_arg).

(** ** _trace_memory_allocation *)

Definition _trace_memory_allocation (test_fn : M Value) : M Z :=
  _ <- gc_disable ;;
  _ <- tracemalloc_start ;;
  _ <- invoke test_fn ;;
  traced <- tracemalloc_get_traced_memory ;;
  let memory_usage_peak := snd traced in
  _ <- tracemalloc_stop ;;
  _ <- gc_enable ;;
  ret (Z.of_N memory_usage_peak).

(** ** timeit.Timer (CPython's standard library)

    [Timer(stmt, setup, timer)] with a callable [stmt] and a source string
    [setup]; [inner] is the function the class compiles from its template. *)

Record Timer : Type := mkTimer {
  stmt : M Value;
  timer : M Z;
  setup : string
}.

(** The two setup sources [run_benchmark] builds, and the default ["pass"]. *)
Definition exec_setup (src : string) : M unit :=
  if string_dec src "import gc; gc.disable()" then gc_disable
  else if string_dec src "import gc; gc.enable()" then gc_enable
  else ret tt.

Fixpoint for_range {A} (n : nat) (body : M A) : M unit :=
  match n with
  | O => ret tt
  | S n' => _ <- body ;; for_range n' body
  end.

Definition inner (tm : Timer) (number : Z) : M Z :=
  _ <- exec_setup (setup tm) ;;
  t0 <- timer tm ;;
  _ <- for_range (Z.to_nat number) (invoke (stmt tm)) ;;
  t1 <- timer tm ;;
  ret (t1 - t0).

Definition Timer_timeit (tm : Timer) (number : Z) : M Z :=
  gcold <- gc_isenabled ;;
  _ <- gc_disable ;;
  finally (inner tm number) (if gcold : bool then gc_enable else ret tt).

Fixpoint repeat_from (tm : Timer) (number : Z) (n : nat) (r : list Z) : M (list Z) :=
  match n with
  | O => ret r
  | S n' => t <- Timer_timeit tm number ;; repeat_from tm number n' (r ++ [t])
  end.

Definition Timer_repeat (tm : Timer) (repeat number : Z) : M (list Z) :=
  repeat_from tm number (Z.to_nat repeat) [].

(** [time_taken >= 0.2]: an integer reading against the literal 0.2 (the
    timer counts nanoseconds, the literal is whatever unit the timer has). *)
Definition threshold : Q := 2 # 10.

Definition reaches_threshold (time_taken : Z) : bool :=
  Qle_bool threshold (inject_Z time_taken).

Fixpoint autorange_for (tm : Timer) (i : Z) (js : list Z)
    (next : M (Z * Z)) : M (Z * Z) :=
  match js with
  | [] => next
  | j :: js' =>
      let number := i * j in
      time_taken <- Timer_timeit tm number ;;
      if reaches_threshold time_taken then ret (number, time_taken)
      else autorange_for tm i js' next
  end.

(** [while True] runs at most [fuel] times round. *)
Fixpoint autorange_from (fuel : nat) (tm : Timer) (i : Z) : M (Z * Z) :=
  match fuel with
  | O => fun w => (OutOfFuel, w)
  | S fuel' => autorange_for tm i [1; 2; 5] (autorange_from fuel' tm (i * 10))
  end.

Definition Timer_autorange (fuel : nat) (tm : Timer) : M (Z * Z) :=
  autorange_from fuel tm 1.

(** ** run_benchmark *)

Definition run_benchmark (fuel : nat) (benchmark_spec : BenchmarkSpec)
  : M BenchmarkResult :=
  test_fun <- _create_test_fun benchmark_spec ;;
  peak_memory_usage <-
    (if _pypy then ret None
     else p <- _trace_memory_allocation test_fun ;; ret (Some p)) ;;
  let setup := String.append EmptyString
                 (if py_gc_disabled benchmark_spec
                  then "import gc; gc.disable()"
                  else "import gc; gc.enable()") in
  let timer := mkTimer test_fun perf_counter_ns setup in
  _ <- Timer_timeit timer (get_warmups benchmark_spec) ;;
  '(batch_size, _) <- Timer_autorange fuel timer ;;
  timings <- Timer_repeat timer (get_iterations benchmark_spec) batch_size ;;
  ret (mkBenchmarkResult timings batch_size peak_memory_usage).

(** ** Vocabulary of the properties *)

(** The four combinations the selector knows. *)
Definition supported (benchmark_spec : BenchmarkSpec) : bool :=
  ((get_io_type benchmark_spec =? "buffer") || (get_io_type benchmark_spec =? "file"))%string
  && ((get_command benchmark_spec =? "read") || (get_command benchmark_spec =? "write"))%string
  && (get_api benchmark_spec =? "load_dump")%string.

(** The sample a [timeit] of [number] invocations leaves in the log when
    the collector flag is [flag] and the reading is [time]: [number]
    invocations, and the collector off exactly when the flag is set, from
    the first reading of the clock to the second. *)
Definition sample_at (flag : bool) (number time : Z) : Sample :=
  mkSample (negb flag) (repeat (negb flag) (Z.to_nat number)) (negb flag) time.

(** What [w'] has on top of [w]: the events [l], with the file system as it
    was and the clock no earlier. *)
Record extends_by (w w' : World) (l : list Event) : Prop := mkExtends {
  ext_trace : trace w' = trace w ++ l;
  ext_files : files w' = files w;
  ext_clock : now w <= now w'
}.

(** A test function that only does file traffic and a collaborator call:
    it leaves the collector and tracing switches alone, and it ends. *)
Definition body_only (f : M Value) : Prop :=
  forall w, exists l,
    extends_by w (snd (f w)) l /\ forallb body_event l = true /\
    gc_on (snd (f w)) = gc_on w /\ tracing (snd (f w)) = tracing w /\
    fst (f w) <> OutOfFuel.

Definition is_timer (e : Event) : bool :=
  match e with EvTimer _ _ => true | _ => false end.

Definition untimed (l : list Event) : Prop :=
  forallb (fun e => negb (is_timer e)) l = true.

(** The timer [run_benchmark] builds for a test function. *)
Definition bench_timer (flag : bool) (test_fun : M Value) : Timer :=
  mkTimer test_fun perf_counter_ns
    (String.append EmptyString
       (if flag then "import gc; gc.disable()" else "import gc; gc.enable()")).

(** What a calibration that ends with [(number, time)] leaves behind: the
    samples of the attempts that fell short, then the one that did not. *)
Definition calibrated (flag : bool) (w w' : World) (number time : Z) : Prop :=
  exists l attempts,
    extends_by w w' l /\ tracing w' = tracing w /\
    scan None l
    = (map (fun nt => sample_at flag (fst nt) (snd nt)) attempts
       ++ [sample_at flag number time], None) /\
    Forall (fun nt => reaches_threshold (snd nt) = false) attempts /\
    reaches_threshold time = true /\
    1 <= number.

(** The collaborator call that one invocation of the test function of a
    supported [benchmark_spec] makes when it runs in [w]; none when the
    input file of a read is missing. *)
Definition test_call (benchmark_spec : BenchmarkSpec) (w : World)
  : option (X -> Reply * X) :=
  let ld := get_loader_dumper benchmark_spec in
  if (get_command benchmark_spec =? "read")%string then
    match files w (get_input_file benchmark_spec) with
    | Some content =>
        Some (if (get_io_type benchmark_spec =? "buffer")%string
              then loads ld content
              else load ld (mkFile (get_input_file benchmark_spec) content))
    | None => None
    end
  else
    Some (if (get_io_type benchmark_spec =? "buffer")%string
          then dumps ld (get_data_object benchmark_spec)
          else dump ld (get_data_object benchmark_spec)
                 (mkTmp (next_tmp w)
                    (format_is_binary (get_format benchmark_spec)
                     || format_is_ion (get_format benchmark_spec)))).

(** The input file of a read is there. *)
Definition input_ready (benchmark_spec : BenchmarkSpec) (w : World) : Prop :=
  get_command benchmark_spec = "read" ->
  files w (get_input_file benchmark_spec) <> None.

(** The replies a loader/dumper can give. *)
Inductive answer_of (ld : LoaderDumper) : Reply -> Prop :=
| ans_loads b x : answer_of ld (fst (loads ld b x))
| ans_dumps v x : answer_of ld (fst (dumps ld v x))
| ans_load f x : answer_of ld (fst (load ld f x))
| ans_dump v f x : answer_of ld (fst (dump ld v f x)).

(** The loader/dumper never raises. *)
Definition never_raises (ld : LoaderDumper) : Prop :=
  forall r, answer_of ld r -> exists v, outcome r = inl v.

(** Every call of the loader/dumper shows on the nanosecond clock. *)
Definition measurable (ld : LoaderDumper) : Prop :=
  forall r, answer_of ld r -> (1 <= elapsed_ns r)%N.

(** [w1] differs from [w] by its log, its clock, its ledger and, when
    tracing, the counters of tracemalloc. *)
Definition same_state (w w1 : World) : Prop :=
  gc_on w1 = gc_on w /\ tracing w1 = tracing w /\
  (tracing w = false ->
   traced_cur w1 = traced_cur w /\ traced_peak w1 = traced_peak w) /\
  io_cost w1 = io_cost w /\
  now w <= now w1 /\ files w1 = files w /\ next_tmp w1 = next_tmp w /\
  live_tmps w1 = live_tmps w /\ ext w1 = ext w.

(** Run in [w], the test function [f] does the call [g]: it ends as the
    reply does, takes at least the time of the reply, and what tracemalloc
    counts are the costs it pays, that of the reply among them. *)
Definition runs_as (f : M Value) (w : World) (g : X -> Reply * X) : Prop :=
  let r := fst (g (ext w)) in
  fst (f w) = match outcome r with inl v => Ok v | inr e => Raise e end /\
  now w + Z.of_N (elapsed_ns r) <= now (snd (f w)) /\
  exists costs,
    ledger (snd (f w)) = ledger w ++ costs /\
    In (reply_cost r) costs /\
    (traced_cur (snd (f w)), traced_peak (snd (f w)))
    = (if tracing w then traced_after (traced_cur w, traced_peak w) costs
       else (traced_cur w, traced_peak w)).

(** Wherever the files are [F], the test function [f] returns and the clock
    shows it. *)
Definition reliable (f : M Value) (F : string -> option bytes) : Prop :=
  forall w, files w = F ->
    exists v, fst (f w) = Ok v /\ now w + 1 <= now (snd (f w)).

(** The same configuration with another iteration count. *)
Definition with_iterations (benchmark_spec : BenchmarkSpec) (n : Z)
  : BenchmarkSpec :=
  mkBenchmarkSpec (get_io_type benchmark_spec) (get_command benchmark_spec)
    (get_api benchmark_spec) (get_input_file benchmark_spec)
    (get_data_object benchmark_spec) (get_format benchmark_spec)
    (get_warmups benchmark_spec) n (py_gc_disabled benchmark_spec)
    (get_loader_dumper benchmark_spec).

(** The guarantee asked of the profiler when the traced invocation fails:
    the failure comes out with tracing stopped and the collector back on. *)
Definition cleanup_on_failure (test_fn : M Value) (w : World) : Prop :=
  forall e w', _trace_memory_allocation test_fn w = (Raise e, w') ->
               tracing w' = false /\ gc_on w' = true.

(** ** Vocabulary of the further properties *)

Definition count_calls (l : list Event) : nat :=
  length (filter (fun e => match e with EvCall _ => true | _ => false end) l).

Definition is_tracemalloc (e : Event) : bool :=
  match e with
  | EvTraceStart | EvGetTraced | EvTraceStop => true
  | _ => false
  end.

(** The names of the temporary files that exist were all handed out. *)
Definition tmp_wf (w : World) : Prop :=
  Forall (fun id => (id < next_tmp w)%nat) (live_tmps w).

(** From [w] to [w'] no temporary file was left behind. *)
Definition keeps_tmps (w w' : World) : Prop :=
  tmp_wf w -> tmp_wf w' /\ live_tmps w' = live_tmps w.

(** From [w] to [w'] tracemalloc was not touched. *)
Definition untraced (w w' : World) : Prop :=
  tracing w' = tracing w /\
  exists l, trace w' = trace w ++ l /\
            forallb (fun e => negb (is_tracemalloc e)) l = true.

(** From [w] to [w'] an enabled collector was not left disabled. *)
Definition stays_enabled (w w' : World) : Prop :=
  gc_on w = true -> gc_on w' = true.

(** From [w] to [w'] the clock did not go back. *)
Definition clock_forward (w w' : World) : Prop := now w <= now w'.

(** The loader/dumper raises [e] at every call. *)
Definition always_raises (ld : LoaderDumper) (e : PyExn) : Prop :=
  forall r, answer_of ld r -> outcome r = inr e.

(** What [run_benchmark] does once the peak memory [pk] is known. *)
Definition timing_phase (fuel : nat) (tm : Timer) (warmups iterations : Z)
    (pk : option Z) : M BenchmarkResult :=
  _ <- Timer_timeit tm warmups ;;
  '(batch_size, _) <- Timer_autorange fuel tm ;;
  timings <- Timer_repeat tm iterations batch_size ;;
  ret (mkBenchmarkResult timings batch_size pk).

(** The memory-profiling step of [run_benchmark]. *)
Definition profiling_phase (test_fun : M Value) : M (option Z) :=
  if _pypy then ret None
  else p <- _trace_memory_allocation test_fun ;; ret (Some p).

(** ** Vocabulary of what is paid and of the collector in the samples *)

(** The peak tracemalloc reports for costs paid from a fresh start of the
    tracing: the most that was allocated at any one moment while they were
    paid. *)
Definition peak_of (costs : list Cost) : Z :=
  Z.of_N (snd (traced_after (0%N, 0%N) costs)).

(** Whatever [f] does, tracemalloc, when tracing, counts exactly what [f]
    pays, and [f] leaves the tracing switch alone. *)
Definition accounted (f : M Value) : Prop :=
  forall w, exists costs,
    ledger (snd (f w)) = ledger w ++ costs /\
    tracing (snd (f w)) = tracing w /\
    (traced_cur (snd (f w)), traced_peak (snd (f w)))
    = (if tracing w then traced_after (traced_cur w, traced_peak w) costs
       else (traced_cur w, traced_peak w)).

(** The selector accepts the configuration. *)
Definition accepted (benchmark_spec : BenchmarkSpec) (w : World) : Prop :=
  exists test_fn w1, _create_test_fun benchmark_spec w = (Ok test_fn, w1).

(** Every accepted configuration gets a result with one timing for each
    configured iteration. *)
Definition one_timing_per_iteration (benchmark_spec : BenchmarkSpec)
    (w : World) : Prop :=
  accepted benchmark_spec w ->
  exists fuel r w',
    run_benchmark fuel benchmark_spec w = (Ok r, w') /\
    Z.of_nat (length (timings r)) = get_iterations benchmark_spec.

(** In a sample the collector is as the flag asks: off when it is set, on
    otherwise, at the first reading of the clock, at every invocation and
    at the second reading. *)
Definition sample_under (flag : bool) (s : Sample) : Prop :=
  s_gc_start s = negb flag /\
  Forall (fun gc => gc = negb flag) (s_calls s) /\
  s_gc_stop s = negb flag.

(** The same for a sample that was begun and not finished. *)
Definition pending_under (flag : bool) (st : ScanState) : Prop :=
  match st with
  | None => True
  | Some (_, gc0, calls) =>
      gc0 = negb flag /\ Forall (fun gc => gc = negb flag) calls
  end.

(** What [m], run in [w], adds to the log reads as samples taken under the
    flag, the last one unfinished only if [m] did not return. *)
Definition timed_at (flag : bool) {A} (m : M A) (w : World) : Prop :=
  exists l,
    trace (snd (m w)) = trace w ++ l /\
    Forall (sample_under flag) (samples_of l) /\
    pending_under flag (snd (scan None l)) /\
    (forall a, fst (m w) = Ok a -> snd (scan None l) = None).

(** From [w] to [w'] the clock was not read. *)
Definition unread (w w' : World) : Prop :=
  exists l, trace w' = trace w ++ l /\ untimed l.

(** From the first reading of the clock on, no event of [l] switches the
    collector away from what the flag asks. *)
Fixpoint setting_kept (flag started : bool) (l : list Event) : bool :=
  match l with
  | [] => true
  | EvTimer _ _ :: l' => setting_kept flag true l'
  | EvGcEnable :: l' =>
      if started && flag then false else setting_kept flag started l'
  | EvGcDisable :: l' =>
      if started && negb flag then false else setting_kept flag started l'
  | _ :: l' => setting_kept flag started l'
  end.

(** The collector setting of the configuration, once applied, persists to
    the end of the run that led from [w] to [w']. *)
Definition setting_persists (benchmark_spec : BenchmarkSpec) (w w' : World)
  : Prop :=
  gc_on w' = negb (py_gc_disabled benchmark_spec) /\
  exists l, trace w' = trace w ++ l /\
            setting_kept (py_gc_disabled benchmark_spec) false l = true.

(** The same configuration with other settings for the timing. *)
Definition with_timing_settings (benchmark_spec : BenchmarkSpec)
    (warmups iterations : Z) (gc_disabled : bool) : BenchmarkSpec :=
  mkBenchmarkSpec (get_io_type benchmark_spec) (get_command benchmark_spec)
    (get_api benchmark_spec) (get_input_file benchmark_spec)
    (get_data_object benchmark_spec) (get_format benchmark_spec)
    warmups iterations gc_disabled (get_loader_dumper benchmark_spec).

End Runner.

(** ** A concrete setting

    A loader/dumper whose state counts its calls, three behaviours for it,
    a format table, and a starting state with one input file. *)

Module Example.

Definition formats : Format :=
  {| format_is_binary := fun s => ((s =? "ion_binary") || (s =? "cbor"))%string;
     format_is_ion := fun s => ((s =? "ion_binary") || (s =? "ion_text"))%string |}.

Definition cpython : Platform := {| _pypy := false |}.

Definition pypy : Platform := {| _pypy := true |}.

(** Every call takes 3 ns and peaks at 100 bytes. *)
Definition steady (k : nat) : @Reply nat * nat :=
  (mkReply (inl k) 3 100, S k).

(** The first four calls are too quick for the clock to see. *)
Definition slow_start (k : nat) : @Reply nat * nat :=
  (mkReply (inl k) (if (k <? 4)%nat then 0 else 3) 100, S k).

(** Every call raises. *)
Definition failing (k : nat) : @Reply nat * nat :=
  (mkReply (inr (CollaboratorError "cannot serialize")) 3 100, S k).

Definition loader_of (g : nat -> @Reply nat * nat) : @LoaderDumper nat nat :=
  mkLoaderDumper (fun _ => g) (fun _ => g) (fun _ => g) (fun _ _ => g).

Definition spec_of (io cmd : string) (iterations : Z) (gc_disabled : bool)
    (g : nat -> @Reply nat * nat) : @BenchmarkSpec nat nat :=
  mkBenchmarkSpec io cmd "load_dump" "in.ion" 7%nat "json" 2 iterations
    gc_disabled (loader_of g).

Definition in_ion : bytes := [Byte.xe0; Byte.x01; Byte.x00; Byte.xea].

(** What the file operations cost on the example's disk. *)
Definition disk_cost (op : IoOp) (k : nat) : Cost :=
  match op with
  | IoOpen _ => mkCost 2 40 40
  | IoRead _ => mkCost 1 8 0
  | IoClose _ => mkCost 1 0 (-40)
  | IoTmpOpen _ => mkCost 4 60 60
  | IoTmpClose _ => mkCost 2 0 (-60)
  end.

Definition start : @World nat :=
  mkWorld true false 0 0 1000
    (fun path => if string_dec path "in.ion" then Some in_ion else None)
    disk_cost 0 [] 0%nat [] [].

(** Read from file, 3 iterations, collector disabled, steady loader. *)
Definition file_read : @BenchmarkSpec nat nat :=
  spec_of "file" "read" 3 true steady.

Definition buffer_read : @BenchmarkSpec nat nat :=
  spec_of "buffer" "read" 3 false steady.

Definition buffer_write : @BenchmarkSpec nat nat :=
  spec_of "buffer" "write" 5 false steady.

Definition file_write : @BenchmarkSpec nat nat :=
  spec_of "file" "write" 3 false failing.

Definition no_iterations : @BenchmarkSpec nat nat :=
  spec_of "buffer" "write" 0 true steady.

(** The example of an unsupported io type. *)
Definition network_read : @BenchmarkSpec nat nat :=
  spec_of "network" "read" 3 false steady.

(** A loader/dumper that is slow to start, and its run on CPython. *)
Definition slow_write : @BenchmarkSpec nat nat :=
  spec_of "buffer" "write" 3 true slow_start.

Definition slow_run : Res BenchmarkResult * @World nat :=
  run_benchmark (_format:=formats) (platform:=cpython) 3 slow_write start.

Definition slow_result : BenchmarkResult :=
  mkBenchmarkResult [6; 6; 6] 2 (Some 100).

(** The test function of (buffer, write, load_dump) over the failing
    loader/dumper. *)
Definition failing_write : @BenchmarkSpec nat nat :=
  spec_of "buffer" "write" 3 false failing.

Definition failing_dumps : @M nat nat :=
  call OpDumps (dumps (loader_of failing) 7%nat).

(** A state whose disk holds no file. *)
Definition empty_disk : @World nat :=
  mkWorld true false 0 0 1000 (fun _ => None) disk_cost 0 [] 0%nat [] [].

Definition file_write_steady : @BenchmarkSpec nat nat :=
  spec_of "file" "write" 3 false steady.

(** [slow_write] with no warm-up, one iteration and the collector left
    on, and its run on CPython. *)
Definition slow_write_quick : @BenchmarkSpec nat nat :=
  with_timing_settings slow_write 0 1 false.

Definition slow_quick_run : Res BenchmarkResult * @World nat :=
  run_benchmark (_format:=formats) (platform:=cpython) 3 slow_write_quick start.

Definition slow_quick_result : BenchmarkResult :=
  mkBenchmarkResult [15] 5 (Some 100).

(** A loader/dumper that raises after it allocated 9000 bytes, and the
    state a run over it leaves on CPython. *)
Definition hungry (k : nat) : @Reply nat * nat :=
  (mkReply (inr (CollaboratorError "out of memory")) 3 9000, S k).

Definition hungry_write : @BenchmarkSpec nat nat :=
  spec_of "buffer" "write" 3 false hungry.

Definition after_failed_run : @World nat :=
  snd (run_benchmark (_format:=formats) (platform:=cpython) 1 hungry_write start).

(** The test function of [buffer_write]. *)
Definition steady_dumps : @M nat nat :=
  call OpDumps (dumps (loader_of steady) 7%nat).

(** A negative iteration count. *)
Definition negative_iterations : @BenchmarkSpec nat nat :=
  spec_of "buffer" "write" (-1) false steady.

(** [slow_write] with no iterations, and its run on CPython. *)
Definition slow_no_iterations : @BenchmarkSpec nat nat :=
  with_iterations slow_write 0.

Definition slow_zero_run : Res BenchmarkResult * @World nat :=
  run_benchmark (_format:=formats) (platform:=cpython) 3 slow_no_iterations start.

Definition slow_zero_result : BenchmarkResult :=
  mkBenchmarkResult [] 2 (Some 100).

(** What the run of [file_read] returns on CPython: each invocation opens
    the file (2 ns), loads (3 ns) and closes (1 ns), and at its peak holds
    the open file (40 bytes) and what the loader allocates (100 bytes). *)
Definition file_read_result : BenchmarkResult :=
  mkBenchmarkResult [6; 6; 6] 1 (Some 140).

End Example.

(** * Properties *)

Section ScanFacts.

Lemma scan_step_acc (acc : list Sample) (s : ScanState) (e : Event) :
  scan_step (acc, s) e
  = (acc ++ fst (scan_step ([], s) e), snd (scan_step ([], s) e)).
Proof.
  unfold scan_step; simpl.
  destruct e; try (now rewrite app_nil_r);
    destruct s as [[[t0 g0] calls]|]; simpl; now rewrite ?app_nil_r.
Qed.

Lemma scan_acc (l : list Event) (acc : list Sample) (s : ScanState) :
  fold_left scan_step l (acc, s) = (acc ++ fst (scan s l), snd (scan s l)).
Proof.
  unfold scan. revert acc s.
  induction l as [|e l IH]; intros acc s; simpl.
  - now rewrite app_nil_r.
  - rewrite scan_step_acc.
    destruct (scan_step ([], s) e) as [a1 s1]; simpl.
    rewrite (IH (acc ++ a1)), (IH a1). simpl. now rewrite app_assoc.
Qed.

Lemma scan_app (s : ScanState) (l1 l2 : list Event) :
  scan s (l1 ++ l2)
  = (fst (scan s l1) ++ fst (scan (snd (scan s l1)) l2),
     snd (scan (snd (scan s l1)) l2)).
Proof.
  unfold scan at 1. rewrite fold_left_app.
  fold (scan s l1). rewrite (surjective_pairing (scan s l1)) at 1.
  now rewrite scan_acc.
Qed.

Lemma scan_body (s : ScanState) (l : list Event) :
  forallb body_event l = true -> scan s l = ([], s).
Proof.
  unfold scan. induction l as [|e l IH]; simpl; intros Hl; [reflexivity|].
  apply andb_true_iff in Hl as [He Hl].
  destruct e; try discriminate He; destruct s as [[[t0 g0] calls]|]; simpl; auto.
Qed.

Lemma scan_untimed (l : list Event) :
  forallb (fun e => negb (is_timer e)) l = true -> scan None l = ([], None).
Proof.
  unfold scan. induction l as [|e l IH]; simpl; intros Hl; [reflexivity|].
  apply andb_true_iff in Hl as [He Hl].
  destruct e; try discriminate He; simpl; auto.
Qed.

Lemma body_untimed (l : list Event) :
  forallb body_event l = true ->
  forallb (fun e => negb (is_timer e)) l = true.
Proof.
  induction l as [|e l IH]; simpl; intros Hl; [reflexivity|].
  apply andb_true_iff in Hl as [He Hl]. rewrite (IH Hl).
  destruct e; try discriminate He; reflexivity.
Qed.

End ScanFacts.

Section RunnerFacts.

Context {X Value : Type} {_format : Format} {platform : Platform}.

Local Abbreviation World := (@World X).
Local Abbreviation M := (@M X).
Local Abbreviation BenchmarkSpec := (@BenchmarkSpec X Value).
Local Abbreviation LoaderDumper := (@LoaderDumper X Value).
Local Abbreviation Reply := (@Reply Value).

Local Notation "x <- m ;; k" := (bind m (fun x => k))
  (at level 61, m at next level, right associativity).

(** ** The monad *)

Lemma bind_Ok {A B} (m : M A) (k : A -> M B) (w w' : World) (b : B) :
  bind m k w = (Ok b, w') ->
  exists a w1, m w = (Ok a, w1) /\ k a w1 = (Ok b, w').
Proof.
  unfold bind. destruct (m w) as [[a|e|] w1]; intros H; try discriminate H.
  now exists a, w1.
Qed.

Lemma finally_Ok {A} (body : M A) (cleanup : M unit) (w w' : World) (a : A) :
  finally body cleanup w = (Ok a, w') ->
  exists w1 u, body w = (Ok a, w1) /\ cleanup w1 = (Ok u, w').
Proof.
  unfold finally. destruct (body w) as [[a'|e|] w1]; intros H.
  - destruct (cleanup w1) as [[u|e|] w2] eqn:Hc; inversion H; subst.
    now exists w1, u.
  - destruct (cleanup w1) as [[u|e'|] w2]; discriminate H.
  - discriminate H.
Qed.

Lemma extends_refl (w : World) : extends_by w w [].
Proof. constructor; [now rewrite app_nil_r | reflexivity | lia]. Qed.

Lemma extends_trans (w w1 w2 : World) (l1 l2 : list Event) :
  extends_by w w1 l1 -> extends_by w1 w2 l2 -> extends_by w w2 (l1 ++ l2).
Proof.
  intros [T1 F1 C1] [T2 F2 C2]. constructor.
  - now rewrite T2, T1, app_assoc.
  - now rewrite F2.
  - lia.
Qed.

Lemma extends_log (e : Event) (w : World) : extends_by w (log e w) [e].
Proof. constructor; simpl; [reflexivity | reflexivity | lia]. Qed.

(** ** Test functions only do body events *)

Ltac frame_facts T :=
  repeat split; simpl; auto; try lia; try discriminate;
  try (rewrite ?T; simpl; rewrite <- ?app_assoc; reflexivity).

Lemma call_body (op : Op) (g : X -> Reply * X) (w : World) :
  extends_by w (snd (call op g w)) [EvCall op] /\
  gc_on (snd (call op g w)) = gc_on w /\
  tracing (snd (call op g w)) = tracing w /\
  fst (call (Value:=Value) op g w) <> OutOfFuel.
Proof.
  unfold call. destruct (g (ext w)) as [r x']; simpl.
  repeat split; simpl; try reflexivity; try lia.
  destruct (outcome r); discriminate.
Qed.

Lemma body_only_call (op : Op) (g : X -> Reply * X) :
  body_only (call (Value:=Value) op g).
Proof.
  intros w. exists [EvCall op].
  destruct (call_body op g w) as (He & Hg & Ht & Hf). auto.
Qed.

Lemma body_only_open (path : string) (g : File -> X -> Reply * X) :
  body_only (with_open_rb path (fun f => call OpLoad (g f))).
Proof.
  intros w. unfold with_open_rb. simpl.
  destruct (files w path) as [content|].
  - exists [EvOpen path; EvCall OpLoad; EvClose path].
    unfold finally, f_close.
    destruct (call_body OpLoad (g (mkFile path content))
                (charge (IoOpen path) (log (EvOpen path) w)))
      as ([T F C] & Hg & Ht & Hf).
    destruct (call OpLoad (g (mkFile path content))
                (charge (IoOpen path) (log (EvOpen path) w)))
      as [[v|e|] w1]; simpl in *; try (now elim Hf).
    + frame_facts T.
    + frame_facts T.
  - exists [EvOpen path]. simpl. frame_facts F.
Qed.

Lemma body_only_tmp (binary : bool) (g : TmpFile -> X -> Reply * X) :
  body_only (with_TemporaryFile binary
               (fun f => call (OpDump (tmp_id f)) (g f))).
Proof.
  intros w. unfold with_TemporaryFile, bind, TemporaryFile, finally, tmp_close.
  set (f := mkTmp (next_tmp w) binary).
  set (w0 := charge (IoTmpOpen binary)
               (log (EvTmpOpen (next_tmp w) binary)
                  (set_tmps (S (next_tmp w)) (next_tmp w :: live_tmps w) w))).
  exists [EvTmpOpen (next_tmp w) binary; EvCall (OpDump (next_tmp w));
          EvTmpClose (next_tmp w)].
  destruct (call_body (OpDump (tmp_id f)) (g f) w0) as ([T F C] & Hg & Ht & Hf).
  destruct (call (OpDump (tmp_id f)) (g f) w0) as [[v|e|] w1];
    simpl in *; try (now elim Hf).
  - frame_facts T.
  - frame_facts T.
Qed.

Lemma create_ok (benchmark_spec : BenchmarkSpec) (w w1 : World) (f : M Value) :
  _create_test_fun benchmark_spec w = (Ok f, w1) ->
  body_only f /\
  exists l, extends_by w w1 l /\ forallb body_event l = true /\
            gc_on w1 = gc_on w /\ tracing w1 = tracing w.
Proof.
  unfold _create_test_fun.
  destruct (match_arg_eq _ _) as [E1|N1];
    [|destruct (match_arg_eq _ _) as [E2|N2];
      [|destruct (match_arg_eq _ _) as [E3|N3];
        [|destruct (match_arg_eq _ _) as [E4|N4]]]].
  - intros H. apply bind_Ok in H as (buffer & w0 & Hopen & Hret).
    inversion Hret; subst; clear Hret. split; [apply body_only_call|].
    unfold with_open_rb in Hopen. simpl in Hopen.
    destruct (files w (get_input_file benchmark_spec)) as [content|];
      [|discriminate Hopen].
    unfold finally, f_read, f_close in Hopen. simpl in Hopen.
    inversion Hopen; subst; clear Hopen.
    exists [EvOpen (get_input_file benchmark_spec);
            EvRead (get_input_file benchmark_spec);
            EvClose (get_input_file benchmark_spec)].
    frame_facts E1.
  - intros H. inversion H; subst. split; [apply body_only_call|].
    exists []. split; [apply extends_refl|auto].
  - intros H. inversion H; subst. split; [apply body_only_open|].
    exists []. split; [apply extends_refl|auto].
  - destruct (format_is_binary _ || format_is_ion _);
      intros H; inversion H; subst; (split; [apply body_only_tmp|]);
      exists []; (split; [apply extends_refl|auto]).
  - discriminate.
Qed.

(** ** One timed sample *)

Lemma exec_setup_flag (flag : bool) (f : M Value) :
  exec_setup (X:=X) (setup (bench_timer flag f))
  = if flag then gc_disable else gc_enable.
Proof. destruct flag; reflexivity. Qed.

Lemma for_range_ok (f : M Value) (Hf : body_only f) (n : nat) :
  forall (w w' : World) (u : unit),
    for_range n (invoke f) w = (Ok u, w') ->
    exists l, extends_by w w' l /\
              gc_on w' = gc_on w /\ tracing w' = tracing w /\
              forall t0 g0 calls,
                scan (Some (t0, g0, calls)) l
                = ([], Some (t0, g0, calls ++ repeat (gc_on w) n)).
Proof.
  induction n as [|n IH]; intros w w' u H; simpl in H.
  - inversion H; subst. exists []. split; [apply extends_refl|].
    repeat split. intros t0 g0 calls. simpl. now rewrite app_nil_r.
  - apply bind_Ok in H as (v & w1 & Hinv & Hrest).
    unfold invoke in Hinv.
    destruct (Hf (log (EvInvoke (gc_on w) (tracing w)) w))
      as (l1 & He1 & Hb1 & Hg1 & Ht1 & _).
    rewrite Hinv in He1, Hg1, Ht1. simpl in He1, Hg1, Ht1.
    destruct (IH _ _ _ Hrest) as (l2 & He2 & Hg2 & Ht2 & Hscan).
    exists ((EvInvoke (gc_on w) (tracing w) :: l1) ++ l2).
    split; [|split; [congruence|split; [congruence|]]].
    + eapply extends_trans; [|exact He2].
      change (EvInvoke (gc_on w) (tracing w) :: l1)
        with ([EvInvoke (gc_on w) (tracing w)] ++ l1).
      eapply extends_trans; [apply extends_log|exact He1].
    + intros t0 g0 calls. rewrite scan_app.
      assert (Hhead : scan (Some (t0, g0, calls)) (EvInvoke (gc_on w) (tracing w) :: l1)
                      = ([], Some (t0, g0, calls ++ [gc_on w]))).
      { change (EvInvoke (gc_on w) (tracing w) :: l1)
          with ([EvInvoke (gc_on w) (tracing w)] ++ l1).
        rewrite scan_app. simpl. now rewrite scan_body. }
      rewrite Hhead. simpl. rewrite Hscan, Hg1. simpl.
      now rewrite <- app_assoc.
Qed.

Lemma timeit_ok (flag : bool) (f : M Value) (Hf : body_only f)
    (number : Z) (w w' : World) (t : Z) :
  Timer_timeit (bench_timer flag f) number w = (Ok t, w') ->
  exists l, extends_by w w' l /\ tracing w' = tracing w /\
            scan None l = ([sample_at flag number t], None).
Proof.
  unfold Timer_timeit. intros H.
  apply bind_Ok in H as (gcold & w1 & H1 & H).
  inversion H1; subst; clear H1.
  apply bind_Ok in H as (u1 & w2 & H2 & H).
  inversion H2; subst; clear H2.
  apply finally_Ok in H as (w3 & u3 & Hinner & Hrestore).
  unfold inner in Hinner. rewrite exec_setup_flag in Hinner.
  apply bind_Ok in Hinner as (u4 & w4 & Hsetup & Hinner).
  apply bind_Ok in Hinner as (t0 & w5 & Ht0 & Hinner).
  apply bind_Ok in Hinner as (u6 & w6 & Hloop & Hinner).
  apply bind_Ok in Hinner as (t1 & w7 & Ht1 & Hret).
  inversion Hret; subst; clear Hret.
  simpl in Ht0, Ht1. inversion Ht0; subst; clear Ht0.
  inversion Ht1; subst; clear Ht1.
  apply (for_range_ok f Hf) in Hloop as (l & [T F C] & Hg & Ht & Hscan).
  set (setup_ev := if flag then EvGcDisable else EvGcEnable).
  assert (Hw4 : trace w4 = trace w1 ++ [EvGcDisable; setup_ev]
                /\ gc_on w4 = negb flag /\ tracing w4 = tracing w1
                /\ files w4 = files w1 /\ now w4 = now w1).
  { subst setup_ev. destruct flag; inversion Hsetup; subst; simpl;
      rewrite <- app_assoc; auto. }
  destruct Hw4 as (T4 & G4 & R4 & F4 & C4).
  simpl in T, F, C, Hg, Ht, Hscan.
  set (restore := if gc_on w1 then [EvGcEnable] else @nil Event).
  assert (Hw' : trace w' = trace w6 ++ EvTimer (now w6) (gc_on w6) :: restore
                 /\ tracing w' = tracing w6 /\ files w' = files w6
                 /\ now w' = now w6).
  { subst restore. destruct (gc_on w1); inversion Hrestore; subst; simpl;
      rewrite <- ?app_assoc; auto. }
  destruct Hw' as (T' & R' & F' & C').
  exists ([EvGcDisable; setup_ev; EvTimer (now w4) (gc_on w4)]
          ++ l ++ EvTimer (now w6) (gc_on w6) :: restore).
  split; [constructor|split].
  - rewrite T', T, T4. simpl. now rewrite <- !app_assoc.
  - congruence.
  - lia.
  - congruence.
  - assert (Hpre : scan None [EvGcDisable; setup_ev; EvTimer (now w4) (gc_on w4)]
                   = ([], Some (now w4, gc_on w4, []))).
    { subst setup_ev. destruct flag; reflexivity. }
    rewrite scan_app, Hpre. simpl. rewrite scan_app, Hscan. simpl.
    unfold sample_at.
    assert (Hpost : forall calls,
               scan (Some (now w4, gc_on w4, calls))
                    (EvTimer (now w6) (gc_on w6) :: restore)
               = ([mkSample (gc_on w4) calls (gc_on w6) (now w6 - now w4)], None)).
    { intros calls. subst restore. destruct (gc_on w1); reflexivity. }
    rewrite Hpost. now rewrite Hg, G4.
Qed.

(** ** Calibration *)

Lemma autorange_for_ok (flag : bool) (f : M Value) (Hf : body_only f)
    (i : Z) (Hi : 1 <= i) (next : M (Z * Z))
    (Hnext : forall w w' n t, next w = (Ok (n, t), w') -> calibrated flag w w' n t)
    (js : list Z) :
  Forall (fun j => 1 <= j) js ->
  forall w w' n t,
    autorange_for (bench_timer flag f) i js next w = (Ok (n, t), w') ->
    calibrated flag w w' n t.
Proof.
  induction js as [|j js IH]; intros Hjs w w' n t H; simpl in H.
  - now apply Hnext.
  - inversion Hjs as [|? ? Hj Hjs']; subst.
    apply bind_Ok in H as (t1 & w1 & Htime & H).
    apply (timeit_ok flag f Hf) in Htime as (l1 & He1 & Ht1 & Hs1).
    destruct (reaches_threshold t1) eqn:Hth.
    + inversion H; subst; clear H.
      exists l1, []. simpl.
      split; [exact He1|]. split; [exact Ht1|]. split; [exact Hs1|].
      split; [constructor|]. split; [exact Hth|nia].
    + apply (IH Hjs') in H as (l2 & att & He2 & Ht2 & Hs2 & Hatt & Hok & Hn).
      exists (l1 ++ l2), ((i * j, t1) :: att).
      split; [eapply extends_trans; eauto|].
      split; [congruence|]. split; [|auto].
      rewrite scan_app, Hs1. simpl. now rewrite Hs2.
Qed.

Lemma autorange_from_ok (flag : bool) (f : M Value) (Hf : body_only f)
    (fuel : nat) :
  forall i, 1 <= i ->
  forall w w' n t,
    autorange_from fuel (bench_timer flag f) i w = (Ok (n, t), w') ->
    calibrated flag w w' n t.
Proof.
  induction fuel as [|fuel IH]; intros i Hi w w' n t H.
  - discriminate H.
  - change (autorange_for (bench_timer flag f) i [1; 2; 5]
              (autorange_from fuel (bench_timer flag f) (i * 10)) w
            = (Ok (n, t), w')) in H.
    revert H. apply (autorange_for_ok flag f Hf i Hi).
    + intros w0 w0' n0 t0. apply IH. lia.
    + repeat constructor; lia.
Qed.

(** ** Repetitions *)

Lemma repeat_from_ok (flag : bool) (f : M Value) (Hf : body_only f)
    (number : Z) (n : nat) :
  forall r w w' ts,
    repeat_from (bench_timer flag f) number n r w = (Ok ts, w') ->
    exists l new,
      ts = r ++ new /\ length new = n /\
      extends_by w w' l /\ tracing w' = tracing w /\
      scan None l = (map (sample_at flag number) new, None).
Proof.
  induction n as [|n IH]; intros r w w' ts H; simpl in H.
  - inversion H; subst. exists [], []. rewrite app_nil_r.
    split; [reflexivity|]. split; [reflexivity|].
    split; [apply extends_refl|]. split; reflexivity.
  - apply bind_Ok in H as (t1 & w1 & Htime & H).
    apply (timeit_ok flag f Hf) in Htime as (l1 & He1 & Ht1 & Hs1).
    apply IH in H as (l2 & new & Hts & Hlen & He2 & Ht2 & Hs2).
    exists (l1 ++ l2), (t1 :: new).
    split; [now rewrite Hts, <- app_assoc|].
    split; [simpl; congruence|].
    split; [eapply extends_trans; eauto|].
    split; [congruence|].
    rewrite scan_app, Hs1. simpl. now rewrite Hs2.
Qed.

(** ** Memory profiling *)

Lemma trace_memory_ok (f : M Value) (Hf : body_only f) (w w' : World) (p : Z) :
  _trace_memory_allocation f w = (Ok p, w') ->
  exists body,
    trace w' = trace w ++ [EvGcDisable; EvTraceStart; EvInvoke false true]
                       ++ body ++ [EvGetTraced; EvTraceStop; EvGcEnable] /\
    forallb body_event body = true /\
    gc_on w' = true /\ tracing w' = false /\
    files w' = files w /\ now w <= now w' /\ 0 <= p.
Proof.
  unfold _trace_memory_allocation. intros H.
  apply bind_Ok in H as (u1 & w1 & H1 & H). inversion H1; subst; clear H1.
  apply bind_Ok in H as (u2 & w2 & H2 & H). inversion H2; subst; clear H2.
  apply bind_Ok in H as (v & w3 & H3 & H).
  apply bind_Ok in H as (tr & w4 & H4 & H). inversion H4; subst; clear H4.
  apply bind_Ok in H as (u5 & w5 & H5 & H). inversion H5; subst; clear H5.
  apply bind_Ok in H as (u6 & w6 & H6 & H). inversion H6; subst; clear H6.
  inversion H; subst; clear H.
  unfold invoke in H3.
  match type of H3 with f ?w0 = _ =>
    destruct (Hf w0) as (body & [T F C] & Hb & Hg & Ht & _);
    rewrite H3 in T, F, C, Hg, Ht
  end.
  exists body. simpl.
  destruct (tracing w) eqn:Etr; simpl in *; rewrite ?Etr in *;
    rewrite T; repeat split; auto; try lia; now rewrite <- !app_assoc.
Qed.

(** ** The whole run, when it returns *)

Lemma memory_step (f : M Value) (Hf : body_only f) (w w' : World)
    (pk : option Z) :
  (if _pypy then ret None
   else p <- _trace_memory_allocation f ;; ret (Some p)) w = (Ok pk, w') ->
  exists l, trace w' = trace w ++ l /\
            forallb (fun e => negb (is_timer e)) l = true.
Proof.
  destruct _pypy.
  - intros H; inversion H; subst. exists []. now rewrite app_nil_r.
  - intros H. apply bind_Ok in H as (p & w1 & Hmem & Hret).
    inversion Hret; subst; clear Hret.
    apply (trace_memory_ok f Hf) in Hmem as (body & T & Hb & _).
    eexists. split; [exact T|].
    simpl. rewrite forallb_app, (body_untimed _ Hb). reflexivity.
Qed.

Lemma run_benchmark_ok (fuel : nat) (benchmark_spec : BenchmarkSpec)
    (w w' : World) (r : BenchmarkResult) :
  run_benchmark fuel benchmark_spec w = (Ok r, w') ->
  let flag := py_gc_disabled benchmark_spec in
  exists l tw attempts tc,
    trace w' = trace w ++ l /\
    samples_of l
    = sample_at flag (get_warmups benchmark_spec) tw
      :: map (fun nt => sample_at flag (fst nt) (snd nt)) attempts
      ++ sample_at flag (batch_size r) tc
      :: map (sample_at flag (batch_size r)) (timings r) /\
    Forall (fun nt => reaches_threshold (snd nt) = false) attempts /\
    reaches_threshold tc = true /\
    1 <= batch_size r /\
    length (timings r) = Z.to_nat (get_iterations benchmark_spec).
Proof.
  intros H flag. unfold run_benchmark in H.
  apply bind_Ok in H as (f & w1 & Hcreate & H).
  apply create_ok in Hcreate as (Hf & l0 & [T0 _ _] & Hb0 & _).
  apply bind_Ok in H as (pk & w2 & Hmem & H).
  apply (memory_step f Hf) in Hmem as (lm & Tm & Hlm).
  fold (bench_timer flag f) in H.
  apply bind_Ok in H as (tw & w3 & Hwarm & H).
  apply (timeit_ok flag f Hf) in Hwarm as (lw & [Tw _ _] & _ & Sw).
  apply bind_Ok in H as ([n tc] & w4 & Hauto & H).
  apply (autorange_from_ok flag f Hf) in Hauto
    as (lc & att & [Tc _ _] & _ & Sc & Hatt & Hth & Hn); [|lia].
  apply bind_Ok in H as (ts & w5 & Hrep & H).
  inversion H; subst; clear H. simpl.
  apply (repeat_from_ok flag f Hf) in Hrep
    as (lr & new & Hts & Hlen & [Tr _ _] & _ & Sr).
  simpl in Hts. subst ts.
  exists (l0 ++ lm ++ lw ++ lc ++ lr), tw, att, tc.
  split; [|split; [|auto]].
  - rewrite Tr, Tc, Tw, Tm, T0. now rewrite <- !app_assoc.
  - unfold samples_of.
    rewrite scan_app, (scan_untimed l0 (body_untimed _ Hb0)). simpl.
    rewrite scan_app, (scan_untimed lm Hlm). simpl.
    rewrite scan_app, Sw. simpl.
    rewrite scan_app, Sc. simpl. rewrite Sr. simpl.
    now rewrite <- app_assoc.
Qed.

(** ** What the selector builds, case by case *)

Lemma supported_cases (benchmark_spec : BenchmarkSpec) :
  supported benchmark_spec = true ->
  (get_io_type benchmark_spec = "buffer" \/ get_io_type benchmark_spec = "file")
  /\ (get_command benchmark_spec = "read" \/ get_command benchmark_spec = "write")
  /\ get_api benchmark_spec = "load_dump".
Proof.
  unfold supported. rewrite !andb_true_iff, !orb_true_iff, !String.eqb_eq. tauto.
Qed.

Lemma same_state_refl (w : World) : same_state w w.
Proof. unfold same_state. repeat split; try reflexivity; lia. Qed.

Ltac runs_as_facts :=
  split; [reflexivity|]; split; [simpl; lia|];
  eexists; split; [simpl; rewrite <- ?app_assoc; simpl; reflexivity|];
  split; [simpl; tauto|];
  simpl; match goal with |- context [tracing ?w] =>
           destruct (tracing w); reflexivity end.

Lemma runs_as_call (op : Op) (g : X -> Reply * X) (w : World) :
  runs_as (call op g) w g.
Proof.
  unfold runs_as, call. destruct (g (ext w)) as [r x']; simpl.
  runs_as_facts.
Qed.

Lemma create_total (benchmark_spec : BenchmarkSpec) (w : World) :
  supported benchmark_spec = true ->
  input_ready benchmark_spec w ->
  exists f w1,
    _create_test_fun benchmark_spec w = (Ok f, w1) /\
    same_state w w1 /\
    forall w2, files w2 = files w ->
      exists g, test_call benchmark_spec w2 = Some g /\ runs_as f w2 g.
Proof.
  intros Hs Hin. apply supported_cases in Hs as ([Hio|Hio] & [Hcmd|Hcmd] & Hapi);
    unfold _create_test_fun, test_call, input_ready in *;
    rewrite Hio, Hcmd, Hapi in *; simpl.
  - specialize (Hin eq_refl).
    unfold bind, with_open_rb. simpl.
    destruct (files w (get_input_file benchmark_spec)) as [content|] eqn:Hfile;
      [|now elim Hin].
    unfold finally, f_read, f_close. simpl.
    eexists _, _. split; [reflexivity|]. split.
    + unfold same_state. simpl.
      repeat split; try reflexivity; try lia;
        match goal with E : tracing w = false |- _ => now rewrite !E end.
    + intros w2 Hw2. rewrite Hw2, Hfile.
      eexists. split; [reflexivity|apply runs_as_call].
  - eexists _, _. split; [reflexivity|]. split; [apply same_state_refl|].
    intros w2 Hw2. eexists. split; [reflexivity|apply runs_as_call].
  - specialize (Hin eq_refl).
    eexists _, _. split; [reflexivity|]. split; [apply same_state_refl|].
    intros w2 Hw2. rewrite Hw2.
    destruct (files w (get_input_file benchmark_spec)) as [content|] eqn:Hfile;
      [|now elim Hin].
    eexists. split; [reflexivity|].
    unfold runs_as, with_open_rb, finally, f_close, call. simpl.
    rewrite Hw2, Hfile.
    destruct (load _ _ (ext w2)) as [r x']; simpl.
    destruct (outcome r); simpl; runs_as_facts.
  - destruct (format_is_binary _ || format_is_ion _);
      (eexists _, _; split; [reflexivity|]; split; [apply same_state_refl|]);
      intros w2 Hw2; (eexists; split; [reflexivity|]);
      unfold runs_as, with_TemporaryFile, bind, TemporaryFile, finally,
        tmp_close, call; simpl;
      destruct (dump _ _ _ (ext w2)) as [r x']; simpl;
      destruct (outcome r); simpl; runs_as_facts.
Qed.

(** ** Enough fuel gives a result *)

Lemma threshold_one_tick (t : Z) : reaches_threshold t = true <-> 1 <= t.
Proof.
  unfold reaches_threshold, threshold, Qle_bool. simpl.
  rewrite Z.leb_le. lia.
Qed.

Lemma test_call_answer (benchmark_spec : BenchmarkSpec) (w : World)
    (g : X -> Reply * X) (x : X) :
  test_call benchmark_spec w = Some g ->
  answer_of (get_loader_dumper benchmark_spec) (fst (g x)).
Proof.
  unfold test_call.
  destruct (get_command benchmark_spec =? "read")%string;
    [destruct (files w (get_input_file benchmark_spec)); [|discriminate]|];
    destruct (get_io_type benchmark_spec =? "buffer")%string;
    intros H; inversion H; subst; constructor.
Qed.

Lemma runs_reliable (benchmark_spec : BenchmarkSpec) (f : M Value)
    (F : string -> option bytes) :
  never_raises (get_loader_dumper benchmark_spec) ->
  measurable (get_loader_dumper benchmark_spec) ->
  (forall w2, files w2 = F ->
     exists g, test_call benchmark_spec w2 = Some g /\ runs_as f w2 g) ->
  reliable f F.
Proof.
  intros Hnr Hm Hruns w Hw.
  destruct (Hruns w Hw) as (g & Hg & Hfst & Hnow & _).
  pose proof (test_call_answer _ _ _ (ext w) Hg) as Ha.
  destruct (Hnr _ Ha) as (v & Hv). specialize (Hm _ Ha).
  exists v. rewrite Hfst, Hv. split; [reflexivity|lia].
Qed.

Lemma for_range_total (f : M Value) (Hb : body_only f)
    (F : string -> option bytes) (Hr : reliable f F) (n : nat) :
  forall w, files w = F ->
    exists w', for_range n (invoke f) w = (Ok tt, w') /\
               files w' = F /\ now w + Z.of_nat n <= now w'.
Proof.
  induction n as [|n IH]; intros w Hw.
  - exists w. simpl. unfold ret. repeat split; auto. lia.
  - simpl. unfold bind.
    set (w0 := log (EvInvoke (gc_on w) (tracing w)) w).
    change (invoke f w) with (f w0).
    destruct (Hr w0 Hw) as (v & Hv & Hnow).
    destruct (Hb w0) as (l & [_ Hfiles _] & _).
    destruct (f w0) as [res w1]. simpl in *. subst res.
    destruct (IH w1) as (w' & Hrun & Hfiles' & Hnow'); [congruence|].
    exists w'. rewrite Hrun. repeat split; auto. lia.
Qed.

Lemma timeit_total (flag : bool) (f : M Value) (Hb : body_only f)
    (F : string -> option bytes) (Hr : reliable f F) (number : Z) (w : World) :
  files w = F ->
  exists t w', Timer_timeit (bench_timer flag f) number w = (Ok t, w') /\
               files w' = F /\ Z.of_nat (Z.to_nat number) <= t.
Proof.
  intros Hw. unfold Timer_timeit, bind, gc_isenabled, gc_disable, finally, inner.
  rewrite exec_setup_flag. unfold bind.
  set (w1 := log EvGcDisable (set_gc false w)).
  assert (Hsetup : exists w2, (if flag then gc_disable else gc_enable) w1 = (Ok tt, w2)
                              /\ files w2 = F /\ now w2 = now w).
  { destruct flag; eexists; (split; [reflexivity|]); simpl; auto. }
  destruct Hsetup as (w2 & -> & Hw2 & Hn2). simpl.
  destruct (for_range_total f Hb F Hr (Z.to_nat number)
              (log (EvTimer (now w2) (gc_on w2)) w2)) as (w3 & Hloop & Hw3 & Hn3); [exact Hw2|].
  rewrite Hloop. simpl in *.
  destruct (gc_on w); simpl; eexists _, _; (split; [reflexivity|]);
    simpl; split; auto; lia.
Qed.

Lemma autorange_total (flag : bool) (f : M Value) (Hb : body_only f)
    (F : string -> option bytes) (Hr : reliable f F) (fuel : nat) (w : World) :
  files w = F ->
  exists t w', Timer_autorange (S fuel) (bench_timer flag f) w = (Ok (1, t), w') /\
               files w' = F.
Proof.
  intros Hw. unfold Timer_autorange. simpl. unfold bind.
  destruct (timeit_total flag f Hb F Hr 1 w Hw) as (t & w' & Htime & Hw' & Ht).
  rewrite Htime.
  assert (Hth : reaches_threshold t = true) by (apply threshold_one_tick; simpl in Ht; lia).
  rewrite Hth. now exists t, w'.
Qed.

Lemma repeat_total (flag : bool) (f : M Value) (Hb : body_only f)
    (F : string -> option bytes) (Hr : reliable f F) (number : Z) (n : nat) :
  forall r w, files w = F ->
    exists ts w', repeat_from (bench_timer flag f) number n r w = (Ok ts, w') /\
                  files w' = F.
Proof.
  induction n as [|n IH]; intros r w Hw; simpl.
  - now exists r, w.
  - unfold bind.
    destruct (timeit_total flag f Hb F Hr number w Hw) as (t & w1 & Htime & Hw1 & _).
    rewrite Htime. now apply IH.
Qed.

Lemma trace_memory_total (f : M Value) (w : World) (v : Value) :
  fst (invoke f (snd (tracemalloc_start (snd (gc_disable w))))) = Ok v ->
  body_only f ->
  exists p w',
    _trace_memory_allocation f w = (Ok p, w') /\ files w' = files w.
Proof.
  intros Hv Hb. unfold invoke in Hv.
  remember (log (EvInvoke (gc_on (snd (tracemalloc_start (snd (gc_disable w)))))
                   (tracing (snd (tracemalloc_start (snd (gc_disable w))))))
              (snd (tracemalloc_start (snd (gc_disable w))))) as w0 eqn:Ew0.
  destruct (Hb w0) as (l & [_ Hfiles _] & _ & _ & Htr & _).
  assert (Htr0 : tracing w0 = true)
    by (rewrite Ew0; simpl; destruct (tracing w) eqn:E; simpl; rewrite ?E; reflexivity).
  assert (Hf0 : files w0 = files w)
    by (rewrite Ew0; simpl; destruct (tracing w) eqn:E; simpl; rewrite ?E; reflexivity).
  rewrite Htr0 in Htr.
  assert (Hrun : _trace_memory_allocation f w
                 = (Ok (Z.of_N (traced_peak (snd (f w0)))),
                    log EvGcEnable (set_gc true (log EvTraceStop
                      (set_traced false 0 0 (log EvGetTraced (snd (f w0)))))))).
  { unfold _trace_memory_allocation, bind, invoke.
    change (gc_disable w) with (Ok tt, snd (gc_disable w)). cbv iota beta.
    change (tracemalloc_start (snd (gc_disable w)))
      with (Ok tt, snd (tracemalloc_start (snd (gc_disable w)))).
    cbv iota beta. rewrite <- Ew0. clear Ew0.
    destruct (f w0) as [res w3]; simpl in *; subst res.
    unfold tracemalloc_get_traced_memory. rewrite Htr. reflexivity. }
  eexists _, _. split; [exact Hrun|]. simpl. congruence.
Qed.

Lemma test_call_same (benchmark_spec : BenchmarkSpec) (w w2 : World) :
  files w2 = files w -> next_tmp w2 = next_tmp w ->
  test_call benchmark_spec w2 = test_call benchmark_spec w.
Proof. intros Hf Hn. unfold test_call. now rewrite Hf, Hn. Qed.

Lemma run_total (fuel : nat) (benchmark_spec : BenchmarkSpec) (w : World) :
  supported benchmark_spec = true ->
  input_ready benchmark_spec w ->
  never_raises (get_loader_dumper benchmark_spec) ->
  measurable (get_loader_dumper benchmark_spec) ->
  exists r w', run_benchmark (S fuel) benchmark_spec w = (Ok r, w').
Proof.
  intros Hs Hin Hnr Hm.
  destruct (create_total benchmark_spec w Hs Hin)
    as (f & w1 & Hcreate & Hsame & Hruns).
  destruct (create_ok _ _ _ _ Hcreate) as (Hb & _).
  pose proof (runs_reliable benchmark_spec f (files w) Hnr Hm Hruns) as Hr.
  destruct Hsame as (_ & _ & _ & _ & _ & Hf1 & _).
  set (flag := py_gc_disabled benchmark_spec).
  assert (Hmem : exists pk w2,
            (if _pypy then ret None
             else p <- _trace_memory_allocation f ;; ret (Some p)) w1 = (Ok pk, w2)
            /\ files w2 = files w).
  { destruct _pypy.
    - exists None, w1. split; [reflexivity|exact Hf1].
    - set (u := snd (tracemalloc_start (snd (gc_disable w1)))).
      set (w0 := log (EvInvoke (gc_on u) (tracing u)) u).
      assert (Hf0 : files w0 = files w)
        by (subst w0 u; simpl; destruct (tracing w1); simpl; exact Hf1).
      destruct (Hr w0 Hf0) as (v & Hv & _).
      destruct (trace_memory_total f w1 v Hv Hb) as (p & w2 & Hmem & Hf2).
      exists (Some p), w2. unfold bind. rewrite Hmem.
      split; [reflexivity|congruence]. }
  destruct Hmem as (pk & w2 & Hmem & Hf2).
  destruct (timeit_total flag f Hb (files w) Hr (get_warmups benchmark_spec) w2 Hf2)
    as (tw & w3 & Hwarm & Hf3 & _).
  destruct (autorange_total flag f Hb (files w) Hr fuel w3 Hf3)
    as (tc & w4 & Hauto & Hf4).
  destruct (repeat_total flag f Hb (files w) Hr 1
              (Z.to_nat (get_iterations benchmark_spec)) [] w4 Hf4)
    as (ts & w5 & Hrep & _).
  exists (mkBenchmarkResult ts 1 pk), w5.
  unfold run_benchmark. fold flag. fold (bench_timer flag f).
  unfold bind at 1. rewrite Hcreate.
  fold (bench_timer flag f).
  unfold bind at 1. rewrite Hmem.
  unfold bind at 1. rewrite Hwarm.
  unfold bind at 1. rewrite Hauto.
  unfold bind at 1. unfold Timer_repeat. rewrite Hrep. reflexivity.
Qed.

Lemma count_invocations_app (l1 l2 : list Event) :
  count_invocations (l1 ++ l2) = (count_invocations l1 + count_invocations l2)%nat.
Proof. unfold count_invocations. now rewrite filter_app, length_app. Qed.

Lemma count_invocations_body (l : list Event) :
  forallb body_event l = true -> count_invocations l = 0%nat.
Proof.
  unfold count_invocations. induction l as [|e l IH]; simpl; intros Hl; [reflexivity|].
  apply andb_true_iff in Hl as [He Hl].
  destruct e; try discriminate He; simpl; auto.
Qed.

(** ** What the test function pays *)

Ltac accounted_facts :=
  eexists; split; [simpl; rewrite <- ?app_assoc; simpl; reflexivity|];
  split; [reflexivity|];
  simpl; match goal with |- context [tracing ?w] =>
           destruct (tracing w); reflexivity end.

Lemma accounted_call (op : Op) (g : X -> Reply * X) :
  accounted (call (Value:=Value) op g).
Proof.
  intros w. unfold call. destruct (g (ext w)) as [r x']; simpl.
  accounted_facts.
Qed.

Lemma accounted_open (path : string) (g : File -> X -> Reply * X) :
  accounted (with_open_rb path (fun f => call OpLoad (g f))).
Proof.
  intros w. unfold with_open_rb. simpl.
  destruct (files w path) as [content|].
  - unfold finally, f_close, call. simpl.
    destruct (g _ (ext w)) as [r x']; simpl.
    destruct (outcome r); simpl; accounted_facts.
  - exists []. simpl. rewrite app_nil_r.
    destruct (tracing w); auto.
Qed.

Lemma accounted_tmp (binary : bool) (g : TmpFile -> X -> Reply * X) :
  accounted (with_TemporaryFile binary
               (fun f => call (OpDump (tmp_id f)) (g f))).
Proof.
  intros w. unfold with_TemporaryFile, bind, TemporaryFile, finally,
    tmp_close, call. simpl.
  destruct (g _ (ext w)) as [r x']; simpl.
  destruct (outcome r); simpl; accounted_facts.
Qed.

Lemma create_accounted (benchmark_spec : BenchmarkSpec) (w w1 : World)
    (f : M Value) :
  _create_test_fun benchmark_spec w = (Ok f, w1) -> accounted f.
Proof.
  unfold _create_test_fun.
  destruct (match_arg_eq _ _) as [E1|N1];
    [|destruct (match_arg_eq _ _) as [E2|N2];
      [|destruct (match_arg_eq _ _) as [E3|N3];
        [|destruct (match_arg_eq _ _) as [E4|N4]]]].
  - intros H. apply bind_Ok in H as (buffer & w0 & _ & Hret).
    inversion Hret; subst. apply accounted_call.
  - intros H. inversion H; subst. apply accounted_call.
  - intros H. inversion H; subst. apply accounted_open.
  - destruct (format_is_binary _ || format_is_ion _);
      intros H; inversion H; subst; apply accounted_tmp.
  - discriminate.
Qed.

(** The peak the profiler returns is the one tracemalloc holds when the
    traced invocation is over. *)
Lemma trace_memory_peak (f : M Value) (Hf : body_only f) (w w' : World) (p : Z) :
  _trace_memory_allocation f w = (Ok p, w') ->
  let wi := snd (invoke f (snd (tracemalloc_start (snd (gc_disable w))))) in
  p = Z.of_N (traced_peak wi) /\ ledger w' = ledger wi.
Proof.
  unfold _trace_memory_allocation. intros H.
  apply bind_Ok in H as (u1 & w1 & H1 & H). inversion H1; subst; clear H1.
  apply bind_Ok in H as (u2 & w2 & H2 & H). inversion H2; subst; clear H2.
  apply bind_Ok in H as (v & w3 & H3 & H).
  apply bind_Ok in H as (tr & w4 & H4 & H). inversion H4; subst; clear H4.
  apply bind_Ok in H as (u5 & w5 & H5 & H). inversion H5; subst; clear H5.
  apply bind_Ok in H as (u6 & w6 & H6 & H). inversion H6; subst; clear H6.
  inversion H; subst; clear H.
  change (snd (tracemalloc_start (snd (gc_disable w))))
    with (log EvTraceStart
            (if tracing w
             then log EvGcDisable (set_gc false w)
             else set_traced true 0 0 (log EvGcDisable (set_gc false w)))).
  rewrite H3. simpl.
  unfold invoke in H3.
  match type of H3 with f ?w0 = _ =>
    destruct (Hf w0) as (body & _ & _ & _ & Ht & _); rewrite H3 in Ht
  end.
  simpl in Ht.
  assert (Htr : tracing w3 = true)
    by (rewrite Ht; simpl; destruct (tracing w) eqn:E; simpl; rewrite ?E;
        reflexivity).
  rewrite Htr. auto.
Qed.

(** What profiling pays, in a state where tracing starts afresh or goes
    on from what it held. *)
Lemma profiled_costs (f : M Value) (Hf : body_only f) (Ha : accounted f)
    (w w' : World) (p : Z) :
  _trace_memory_allocation f w = (Ok p, w') ->
  exists costs,
    ledger w' = ledger w ++ costs /\
    ledger (snd (invoke f (snd (tracemalloc_start (snd (gc_disable w))))))
    = ledger w ++ costs /\
    p = Z.of_N (snd (traced_after
                       (if tracing w then (traced_cur w, traced_peak w)
                        else (0%N, 0%N)) costs)).
Proof.
  intros H. destruct (trace_memory_peak f Hf w w' p H) as (Hp & Hl).
  unfold invoke in Hp, Hl |- *.
  match type of Hp with context [f ?w0] =>
    destruct (Ha w0) as (costs & Hled & _ & Hacc);
    assert (Htr0 : tracing w0 = true)
      by (simpl; destruct (tracing w) eqn:E; simpl; rewrite ?E; reflexivity);
    assert (Hl0 : ledger w0 = ledger w)
      by (simpl; destruct (tracing w) eqn:E; simpl; rewrite ?E; reflexivity);
    assert (Hc0 : (traced_cur w0, traced_peak w0)
                  = if tracing w then (traced_cur w, traced_peak w)
                    else (0%N, 0%N))
      by (simpl; destruct (tracing w) eqn:E; simpl; rewrite ?E; reflexivity);
    rewrite Htr0, Hc0 in Hacc; rewrite Hl0 in Hled
  end.
  exists costs. split; [now rewrite Hl|]. split; [exact Hled|].
  rewrite Hp. f_equal.
  change (traced_peak ?u) with (snd (traced_cur u, traced_peak u)).
  now rewrite Hacc.
Qed.

(** ** The claims *)

(** C1, as the code has it. Whenever [run_benchmark] returns, the result
    has one timing for each configured iteration (none when the count is
    not positive), and the last samples in the log are these timings, each
    taken over [batch_size] consecutive invocations of the test function.
    It returns, given enough rounds of calibration, for a supported
    configuration whose input is in place and whose loader/dumper returns
    and takes time the clock can see. *)
Theorem C1_timings_per_iteration (fuel : nat)
    (benchmark_spec : BenchmarkSpec) (w : World) :
  (forall r w',
     run_benchmark fuel benchmark_spec w = (Ok r, w') ->
     length (timings r) = Z.to_nat (get_iterations benchmark_spec) /\
     exists l earlier,
       trace w' = trace w ++ l /\
       samples_of l
       = earlier ++ map (sample_at (py_gc_disabled benchmark_spec) (batch_size r))
                        (timings r)) /\
  (supported benchmark_spec = true ->
   input_ready benchmark_spec w ->
   never_raises (get_loader_dumper benchmark_spec) ->
   measurable (get_loader_dumper benchmark_spec) ->
   exists r w', run_benchmark (S fuel) benchmark_spec w = (Ok r, w')).
Proof.
  split.
  - intros r w' Hrun.
    destruct (run_benchmark_ok _ _ _ _ _ Hrun)
      as (l & tw & att & tc & T & S & _ & _ & _ & Hlen).
    split; [exact Hlen|]. exists l.
    exists (sample_at (py_gc_disabled benchmark_spec) (get_warmups benchmark_spec) tw
            :: map (fun nt => sample_at (py_gc_disabled benchmark_spec) (fst nt) (snd nt)) att
            ++ [sample_at (py_gc_disabled benchmark_spec) (batch_size r) tc]).
    split; [exact T|]. rewrite S. simpl. now rewrite <- app_assoc.
  - intros Hs Hin Hnr Hm. exact (run_total fuel benchmark_spec w Hs Hin Hnr Hm).
Qed.

(** C2. For a triple outside the four supported ones the selector raises
    NotImplementedError carrying the triple, and so does [run_benchmark],
    in both cases with the state untouched: nothing was opened, profiled or
    timed. *)
Theorem C2_unsupported_combination (fuel : nat)
    (benchmark_spec : BenchmarkSpec) (w : World) :
  supported benchmark_spec = false ->
  let match_arg := [get_io_type benchmark_spec; get_command benchmark_spec;
                    get_api benchmark_spec] in
  _create_test_fun benchmark_spec w = (Raise (NotImplementedError match_arg), w) /\
  run_benchmark fuel benchmark_spec w = (Raise (NotImplementedError match_arg), w).
Proof.
  intros Hs match_arg.
  assert (Hc : _create_test_fun benchmark_spec w
               = (Raise (NotImplementedError match_arg), w)).
  { unfold _create_test_fun. fold match_arg.
    repeat (destruct (match_arg_eq _ _) as [E|_];
            [exfalso; injection E as Hio Hcmd Hapi; unfold supported in Hs;
             rewrite Hio, Hcmd, Hapi in Hs; discriminate Hs|]).
    reflexivity. }
  split; [exact Hc|].
  unfold run_benchmark, bind. now rewrite Hc.
Qed.

(** C3. For (buffer, read, load_dump) the selector opens, reads and closes
    the input file once, and each call of the function it returns, in
    whatever state and with whatever is then on disk, is one call of
    [loads] on the bytes read at construction: it ends as that call's
    reply says, leaves the loader/dumper as the call left it, pays the
    reply's cost and nothing else, logs the call and nothing else, and
    leaves the files alone. *)
Theorem C3_buffer_read_reads_once (benchmark_spec : BenchmarkSpec) (w : World)
    (content : bytes) :
  get_io_type benchmark_spec = "buffer" ->
  get_command benchmark_spec = "read" ->
  get_api benchmark_spec = "load_dump" ->
  files w (get_input_file benchmark_spec) = Some content ->
  let path := get_input_file benchmark_spec in
  exists test_fn w1,
    _create_test_fun benchmark_spec w = (Ok test_fn, w1) /\
    trace w1 = trace w ++ [EvOpen path; EvRead path; EvClose path] /\
    ledger w1 = ledger w ++ [io_cost w (IoOpen path) (ext w);
                             io_cost w (IoRead path) (ext w);
                             io_cost w (IoClose path) (ext w)] /\
    forall w2,
      let reply := loads (get_loader_dumper benchmark_spec) content (ext w2) in
      fst (test_fn w2)
      = match outcome (fst reply) with inl v => Ok v | inr e => Raise e end /\
      ext (snd (test_fn w2)) = snd reply /\
      trace (snd (test_fn w2)) = trace w2 ++ [EvCall OpLoads] /\
      ledger (snd (test_fn w2)) = ledger w2 ++ [reply_cost (fst reply)] /\
      files (snd (test_fn w2)) = files w2.
Proof.
  intros Hio Hcmd Hapi Hfile path. subst path.
  unfold _create_test_fun. rewrite Hio, Hcmd, Hapi. simpl.
  unfold bind, with_open_rb. simpl. rewrite Hfile.
  unfold finally, f_read, f_close. simpl.
  eexists _, _. split; [reflexivity|]. split; [|split].
  - simpl. now rewrite <- !app_assoc.
  - simpl. now rewrite <- !app_assoc.
  - intros w2. unfold call. simpl.
    destruct (loads _ _ (ext w2)) as [r x']. simpl. auto.
Qed.

(** C4. For (file, write, load_dump) the selector does nothing at
    construction, and each call of the function it returns goes through
    three states: [TemporaryFile] creates a file under a name that no
    existing temporary file has, binary exactly when the format is binary
    or Ion; [dump] is called on the data object and that file, which
    exists while it runs; the file is closed, which deletes it, whether
    [dump] returned or raised, so that the temporary files are then those
    there were before the call. The call ends as the reply of [dump]
    says. *)
Theorem C4_file_write_temporary_file (benchmark_spec : BenchmarkSpec) (w : World) :
  get_io_type benchmark_spec = "file" ->
  get_command benchmark_spec = "write" ->
  get_api benchmark_spec = "load_dump" ->
  exists test_fn,
    _create_test_fun benchmark_spec w = (Ok test_fn, w) /\
    forall w2, tmp_wf w2 ->
      let binary := format_is_binary (get_format benchmark_spec)
                    || format_is_ion (get_format benchmark_spec) in
      let f := mkTmp (next_tmp w2) binary in
      let reply := dump (get_loader_dumper benchmark_spec)
                     (get_data_object benchmark_spec) f (ext w2) in
      exists w_open w_dumped,
        TemporaryFile binary w2 = (Ok f, w_open) /\
        ~ In (tmp_id f) (live_tmps w2) /\
        live_tmps w_open = tmp_id f :: live_tmps w2 /\
        call (OpDump (tmp_id f))
          (dump (get_loader_dumper benchmark_spec)
             (get_data_object benchmark_spec) f) w_open
        = (match outcome (fst reply) with inl v => Ok v | inr e => Raise e end,
           w_dumped) /\
        ext w_dumped = snd reply /\
        In (tmp_id f) (live_tmps w_dumped) /\
        tmp_close f w_dumped = (Ok tt, snd (test_fn w2)) /\
        fst (test_fn w2)
        = match outcome (fst reply) with inl v => Ok v | inr e => Raise e end /\
        live_tmps (snd (test_fn w2)) = live_tmps w2 /\
        next_tmp (snd (test_fn w2)) = S (next_tmp w2) /\
        trace (snd (test_fn w2))
        = trace w2 ++ [EvTmpOpen (tmp_id f) binary;
                       EvCall (OpDump (tmp_id f)); EvTmpClose (tmp_id f)].
Proof.
  intros Hio Hcmd Hapi.
  unfold _create_test_fun. rewrite Hio, Hcmd, Hapi. simpl.
  assert (Hfresh : forall w2 : World, tmp_wf w2 -> ~ In (next_tmp w2) (live_tmps w2)).
  { intros w2 Hwf Hin. unfold tmp_wf in Hwf.
    rewrite Forall_forall in Hwf. specialize (Hwf _ Hin). lia. }
  assert (Hrem : forall w2 : World, tmp_wf w2 ->
            remove Nat.eq_dec (next_tmp w2) (next_tmp w2 :: live_tmps w2)
            = live_tmps w2).
  { intros w2 Hwf. simpl.
    destruct (Nat.eq_dec (next_tmp w2) (next_tmp w2)) as [_|N]; [|now elim N].
    apply notin_remove. now apply Hfresh. }
  destruct (format_is_binary _ || format_is_ion _);
    (eexists; split; [reflexivity|]); intros w2 Hwf; cbv zeta;
    match goal with |- context [dump ?ld ?obj ?f (ext w2)] =>
      exists (snd (TemporaryFile (tmp_binary f) w2)),
             (snd (call (OpDump (tmp_id f)) (dump ld obj f)
                     (snd (TemporaryFile (tmp_binary f) w2))))
    end;
    (split; [reflexivity|]);
    (split; [exact (Hfresh w2 Hwf)|]); (split; [reflexivity|]);
    unfold with_TemporaryFile, bind, TemporaryFile, finally, tmp_close, call;
    simpl;
    destruct (dump _ _ _ (ext w2)) as [r x']; simpl;
    destruct (outcome r); simpl;
    (split; [reflexivity|]);
    (split; [reflexivity|]);
    (split; [now left|]);
    (split; [reflexivity|]);
    (split; [reflexivity|]);
    (split; [exact (Hrem w2 Hwf)|]);
    (split; [reflexivity|]);
    now rewrite <- !app_assoc.
Qed.

(** C6. For the test function of a supported configuration whose
    loader/dumper returns, the profiler's log is, in this order:
    gc.disable(), tracemalloc.start(), one invocation of the test function
    (with the collector off and tracing on) and the events of its body,
    tracemalloc.get_traced_memory(), tracemalloc.stop(), gc.enable(); the
    test function is invoked once, and its value is dropped: what comes
    back is the peak tracemalloc holds after the costs of that one
    invocation, the collaborator call among them, counted from zero when
    the tracing started here and from what tracemalloc held when it was
    already on. *)
Theorem C6_memory_profiling_steps (benchmark_spec : BenchmarkSpec) (w0 : World) :
  supported benchmark_spec = true ->
  input_ready benchmark_spec w0 ->
  never_raises (get_loader_dumper benchmark_spec) ->
  exists test_fn w1,
    _create_test_fun benchmark_spec w0 = (Ok test_fn, w1) /\
    forall w, files w = files w0 ->
      exists p w' body costs g,
        _trace_memory_allocation test_fn w = (Ok p, w') /\
        trace w' = trace w ++ [EvGcDisable; EvTraceStart; EvInvoke false true]
                           ++ body ++ [EvGetTraced; EvTraceStop; EvGcEnable] /\
        forallb body_event body = true /\
        count_invocations ([EvGcDisable; EvTraceStart; EvInvoke false true]
                           ++ body ++ [EvGetTraced; EvTraceStop; EvGcEnable])
        = 1%nat /\
        gc_on w' = true /\ tracing w' = false /\
        ledger w' = ledger w ++ costs /\
        test_call benchmark_spec w = Some g /\
        In (reply_cost (fst (g (ext w)))) costs /\
        p = Z.of_N (snd (traced_after
                           (if tracing w then (traced_cur w, traced_peak w)
                            else (0%N, 0%N)) costs)).
Proof.
  intros Hs Hin Hnr.
  destruct (create_total benchmark_spec w0 Hs Hin)
    as (f & w1 & Hcreate & _ & Hruns).
  destruct (create_ok _ _ _ _ Hcreate) as (Hb & _).
  pose proof (create_accounted _ _ _ _ Hcreate) as Hacc.
  exists f, w1. split; [exact Hcreate|]. intros w Hw.
  set (u := snd (tracemalloc_start (snd (gc_disable w)))).
  set (wi := log (EvInvoke (gc_on u) (tracing u)) u).
  assert (Hfi : files wi = files w0)
    by (subst wi u; simpl; destruct (tracing w); simpl; exact Hw).
  assert (Hni : next_tmp wi = next_tmp w)
    by (subst wi u; simpl; destruct (tracing w); reflexivity).
  assert (Hxi : ext wi = ext w)
    by (subst wi u; simpl; destruct (tracing w); reflexivity).
  assert (Hli : ledger wi = ledger w)
    by (subst wi u; simpl; destruct (tracing w); reflexivity).
  destruct (Hruns wi Hfi) as (g & Hg & Hfst & _ & costs & Hled & Hincosts & _).
  rewrite (test_call_same _ w wi) in Hg by congruence.
  pose proof (test_call_answer _ _ _ (ext wi) Hg) as Ha.
  destruct (Hnr _ Ha) as (v & Hv). rewrite Hv in Hfst.
  destruct (trace_memory_total f w v Hfst Hb) as (p & w' & Hmem & _).
  destruct (trace_memory_ok f Hb w w' p Hmem) as (body & T & Hbody & Hgc & Htr & _).
  destruct (profiled_costs f Hb Hacc w w' p Hmem) as (costs' & Hl' & Hli' & Hp).
  assert (Ec : costs' = costs).
  { change (ledger (snd (f wi)) = ledger w ++ costs') in Hli'.
    rewrite Hled, Hli in Hli'.
    now apply app_inv_head in Hli'. }
  subst costs'.
  exists p, w', body, costs, g. rewrite <- Hxi.
  repeat split; auto.
  rewrite !count_invocations_app, (count_invocations_body _ Hbody). reflexivity.
Qed.

(** C7, as the code has it. When the traced invocation of the test function
    raises, [_trace_memory_allocation] raises the same exception in the
    state the invocation left: tracing is still on, the collector is still
    off, and the log ends with the body of the test function. *)
Theorem C7_failure_skips_cleanup (benchmark_spec : BenchmarkSpec)
    (w0 w1 : World) (test_fn : M Value) (w w' : World) (e : PyExn) :
  _create_test_fun benchmark_spec w0 = (Ok test_fn, w1) ->
  invoke test_fn (snd (tracemalloc_start (snd (gc_disable w)))) = (Raise e, w') ->
  _trace_memory_allocation test_fn w = (Raise e, w') /\
  tracing w' = true /\ gc_on w' = false /\
  exists body,
    trace w' = trace w ++ [EvGcDisable; EvTraceStart; EvInvoke false true] ++ body /\
    forallb body_event body = true.
Proof.
  intros Hcreate Hinv.
  destruct (create_ok _ _ _ _ Hcreate) as (Hb & _).
  split.
  - unfold _trace_memory_allocation, bind.
    change (gc_disable w) with (Ok tt, snd (gc_disable w)). cbv iota beta.
    change (tracemalloc_start (snd (gc_disable w)))
      with (Ok tt, snd (tracemalloc_start (snd (gc_disable w)))).
    cbv iota beta. now rewrite Hinv.
  - unfold invoke in Hinv.
    match type of Hinv with test_fn ?u = _ =>
      destruct (Hb u) as (body & [T _ _] & Hbody & Hg & Ht & _);
      rewrite Hinv in T, Hg, Ht
    end.
    simpl in T, Hg, Ht.
    destruct (tracing w) eqn:E; simpl in *; rewrite ?E in *;
      (split; [exact Ht|]; split; [exact Hg|]; exists body;
       split; [rewrite T; now rewrite <- !app_assoc|exact Hbody]).
Qed.

(** C9. In a run that returns, [batch_size] is at least 1, and the sample
    that precedes the repetitions in the log, the last of the calibration,
    was taken over [batch_size] invocations and reached the threshold. *)
Theorem C9_batch_size_calibrated (fuel : nat)
    (benchmark_spec : BenchmarkSpec) (w w' : World) (r : BenchmarkResult) :
  run_benchmark fuel benchmark_spec w = (Ok r, w') ->
  let flag := py_gc_disabled benchmark_spec in
  1 <= batch_size r /\
  exists l earlier tc,
    trace w' = trace w ++ l /\
    samples_of l
    = earlier
      ++ sample_at flag (batch_size r) tc
      :: map (sample_at flag (batch_size r)) (timings r) /\
    (threshold <= inject_Z tc)%Q.
Proof.
  intros Hrun flag.
  destruct (run_benchmark_ok _ _ _ _ _ Hrun)
    as (l & tw & att & tc & T & S & _ & Hth & Hn & _).
  split; [exact Hn|].
  exists l,
    (sample_at flag (get_warmups benchmark_spec) tw
     :: map (fun nt => sample_at flag (fst nt) (snd nt)) att), tc.
  split; [exact T|]. split; [exact S|].
  now apply Qle_bool_iff.
Qed.

(** C10. With an iteration count of zero: whenever the run with some other
    count returns, the run with zero returns too, with no timings and the
    batch size and peak memory of that run; whenever it returns, the
    timings are empty, the peak memory is None on PyPy and a non-negative
    number elsewhere, the batch size is at least 1, and the log ends with
    the sample that calibrated it, taken over [batch_size] invocations and
    at or above the threshold; and it returns, given enough rounds of
    calibration, for a supported configuration whose input is in place and
    whose loader/dumper returns and takes time the clock can see. *)
Theorem C10_zero_iterations (fuel : nat) (benchmark_spec : BenchmarkSpec)
    (w : World) :
  get_iterations benchmark_spec = 0 ->
  let flag := py_gc_disabled benchmark_spec in
  (forall n r w',
     run_benchmark fuel (with_iterations benchmark_spec n) w = (Ok r, w') ->
     exists w0,
       run_benchmark fuel benchmark_spec w
       = (Ok (mkBenchmarkResult [] (batch_size r) (peak_memory_usage r)), w0)) /\
  (forall r w',
     run_benchmark fuel benchmark_spec w = (Ok r, w') ->
     timings r = [] /\
     (if _pypy then peak_memory_usage r = None
      else exists p, peak_memory_usage r = Some p /\ 0 <= p) /\
     1 <= batch_size r /\
     exists l earlier tc,
       trace w' = trace w ++ l /\
       samples_of l = earlier ++ [sample_at flag (batch_size r) tc] /\
       (threshold <= inject_Z tc)%Q) /\
  (supported benchmark_spec = true ->
   input_ready benchmark_spec w ->
   never_raises (get_loader_dumper benchmark_spec) ->
   measurable (get_loader_dumper benchmark_spec) ->
   exists r w', run_benchmark (S fuel) benchmark_spec w = (Ok r, w')).
Proof.
  intros Hit flag. split; [|split].
  - intros n r w' H. unfold run_benchmark in H.
    apply bind_Ok in H as (f & w1 & Hc & H).
    apply bind_Ok in H as (pk & w2 & Hm & H).
    apply bind_Ok in H as (tw & w3 & Hw & H).
    apply bind_Ok in H as ([b tc] & w4 & Ha & H).
    apply bind_Ok in H as (ts & w5 & _ & H).
    inversion H; subst; clear H. simpl.
    exists w4.
    assert (Hc' : _create_test_fun benchmark_spec w = (Ok f, w1)) by exact Hc.
    assert (Hw' : Timer_timeit (bench_timer flag f)
                    (get_warmups benchmark_spec) w2 = (Ok tw, w3)) by exact Hw.
    assert (Ha' : Timer_autorange fuel (bench_timer flag f) w3
                  = (Ok (b, tc), w4)) by exact Ha.
    unfold run_benchmark. fold flag.
    unfold bind at 1. rewrite Hc'. fold (bench_timer flag f).
    unfold bind at 1. rewrite Hm.
    unfold bind at 1. rewrite Hw'.
    unfold bind at 1. rewrite Ha'.
    rewrite Hit. reflexivity.
  - intros r w' Hrun.
    destruct (run_benchmark_ok _ _ _ _ _ Hrun)
      as (l & tw & att & tc & T & S & _ & Hth & Hn & Hlen).
    assert (Hts : timings r = [])
      by (rewrite Hit in Hlen; now apply length_zero_iff_nil).
    split; [exact Hts|]. split; [|split; [exact Hn|]].
    + unfold run_benchmark in Hrun.
      apply bind_Ok in Hrun as (f & w1 & Hc & H).
      destruct (create_ok _ _ _ _ Hc) as (Hb & _).
      apply bind_Ok in H as (pk & w2 & Hm & H).
      apply bind_Ok in H as (tw' & w3 & _ & H).
      apply bind_Ok in H as ([b tc'] & w4 & _ & H).
      apply bind_Ok in H as (ts & w5 & _ & H).
      inversion H; subst; clear H. simpl.
      destruct _pypy.
      * now inversion Hm.
      * apply bind_Ok in Hm as (p & w2' & Hmem & Hret).
        inversion Hret; subst; clear Hret.
        apply (trace_memory_ok f Hb) in Hmem as (_ & _ & _ & _ & _ & _ & _ & Hp).
        now exists p.
    + exists l,
        (sample_at flag (get_warmups benchmark_spec) tw
         :: map (fun nt => sample_at flag (fst nt) (snd nt)) att), tc.
      split; [exact T|]. split; [|now apply Qle_bool_iff].
      fold flag in S. rewrite S, Hts. reflexivity.
  - intros Hs Hin Hnr Hm. exact (run_total fuel benchmark_spec w Hs Hin Hnr Hm).
Qed.

End RunnerFacts.

(** * Further properties *)

(** ** Relations every step keeps *)

Section Keeping.

Context {X Value : Type} {_format : Format} {platform : Platform}.

Local Abbreviation World := (@World X).
Local Abbreviation M := (@M X).
Local Abbreviation BenchmarkSpec := (@BenchmarkSpec X Value).

Variable R : World -> World -> Prop.
Hypothesis R_refl : forall w, R w w.
Hypothesis R_trans : forall w1 w2 w3, R w1 w2 -> R w2 w3 -> R w1 w3.

Lemma R_bind {A B} (m : M A) (k : A -> M B) (w : World) :
  R w (snd (m w)) ->
  (forall a w1, m w = (Ok a, w1) -> R w1 (snd (k a w1))) ->
  R w (snd (bind m k w)).
Proof.
  unfold bind. intros Hm Hk.
  destruct (m w) as [[a|e|] w1]; simpl in *; auto.
  eapply R_trans; [exact Hm|]. now apply Hk.
Qed.

Lemma R_finally {A} (body : M A) (cleanup : M unit) (w : World) :
  R w (snd (body w)) ->
  (forall w1, R w1 (snd (cleanup w1))) ->
  R w (snd (finally body cleanup w)).
Proof.
  unfold finally. intros Hb Hc.
  destruct (body w) as [[a|e|] w1]; simpl in *; auto;
    specialize (Hc w1); destruct (cleanup w1) as [[u|e'|] w2]; simpl in *;
    eapply R_trans; eauto.
Qed.

Lemma R_for_range {A} (body : M A) :
  (forall w, R w (snd (body w))) ->
  forall n w, R w (snd (for_range n body w)).
Proof.
  intros Hb. induction n as [|n IH]; intros w; simpl.
  - apply R_refl.
  - apply R_bind; [apply Hb|]. intros _ w1 _. apply IH.
Qed.

Section FromPrimitives.

Hypothesis R_gc_disable : forall w, R w (snd (gc_disable w)).
Hypothesis R_gc_enable : forall w, R w (snd (gc_enable w)).
Hypothesis R_timer : forall w, R w (snd (perf_counter_ns w)).
Hypothesis R_mark : forall w, R w (log (EvInvoke (gc_on w) (tracing w)) w).

Variable f : M Value.
Hypothesis R_f : forall w, R w (snd (f w)).

Lemma R_invoke (w : World) : R w (snd (invoke f w)).
Proof. unfold invoke. eapply R_trans; [apply R_mark|apply R_f]. Qed.

Lemma R_inner (flag : bool) (number : Z) (w : World) :
  R w (snd (inner (bench_timer flag f) number w)).
Proof.
  unfold inner. rewrite exec_setup_flag.
  apply R_bind; [destruct flag; auto|]. intros _ w1 _.
  apply R_bind; [apply R_timer|]. intros t0 w2 _.
  apply R_bind; [apply R_for_range, R_invoke|]. intros _ w3 _.
  apply R_bind; [apply R_timer|]. intros t1 w4 _. apply R_refl.
Qed.

Lemma R_timeit (flag : bool) (number : Z) (w : World) :
  R w (snd (Timer_timeit (bench_timer flag f) number w)).
Proof.
  unfold Timer_timeit.
  apply R_bind; [apply R_refl|]. intros gcold w1 _.
  apply R_bind; [apply R_gc_disable|]. intros _ w2 _.
  apply R_finally; [apply R_inner|].
  intros w3. destruct gcold; [apply R_gc_enable|apply R_refl].
Qed.

End FromPrimitives.

Section FromTimeit.

Variable tm : @Timer X Value.
Hypothesis R_tm : forall number w, R w (snd (Timer_timeit tm number w)).

Lemma R_repeat_from (number : Z) (n : nat) :
  forall r w, R w (snd (repeat_from tm number n r w)).
Proof.
  induction n as [|n IH]; intros r w; simpl.
  - apply R_refl.
  - apply R_bind; [apply R_tm|]. intros t w1 _. apply IH.
Qed.

Lemma R_autorange_for (i : Z) (next : M (Z * Z))
    (Hnext : forall w, R w (snd (next w))) (js : list Z) :
  forall w, R w (snd (autorange_for tm i js next w)).
Proof.
  induction js as [|j js IH]; intros w; simpl.
  - apply Hnext.
  - apply R_bind; [apply R_tm|]. intros t w1 _.
    destruct (reaches_threshold t); [apply R_refl|apply IH].
Qed.

Lemma R_autorange_from (fuel : nat) :
  forall i w, R w (snd (autorange_from fuel tm i w)).
Proof.
  induction fuel as [|fuel IH]; intros i w.
  - apply R_refl.
  - change (autorange_from (S fuel) tm i)
      with (autorange_for tm i [1; 2; 5] (autorange_from fuel tm (i * 10))).
    apply R_autorange_for. apply IH.
Qed.

Lemma R_timing_phase (fuel : nat) (warmups iterations : Z) (pk : option Z)
    (w : World) :
  R w (snd (timing_phase fuel tm warmups iterations pk w)).
Proof.
  unfold timing_phase.
  apply R_bind; [apply R_tm|]. intros _ w1 _.
  apply R_bind; [apply R_autorange_from|]. intros [b t] w2 _.
  apply R_bind; [apply R_repeat_from|]. intros ts w3 _. apply R_refl.
Qed.

End FromTimeit.

(** The whole run keeps what construction, profiling and [timeit] keep. *)
Lemma R_run_benchmark (fuel : nat) (benchmark_spec : BenchmarkSpec) (w : World) :
  R w (snd (_create_test_fun benchmark_spec w)) ->
  (forall f w1, _create_test_fun benchmark_spec w = (Ok f, w1) ->
     (forall w2, R w2 (snd (profiling_phase f w2))) /\
     (forall number w2,
        R w2 (snd (Timer_timeit
                     (bench_timer (py_gc_disabled benchmark_spec) f) number w2)))) ->
  R w (snd (run_benchmark fuel benchmark_spec w)).
Proof.
  intros Hc Hrest.
  change (run_benchmark fuel benchmark_spec)
    with (bind (_create_test_fun benchmark_spec)
            (fun f => bind (profiling_phase f)
               (fun pk => timing_phase fuel
                            (bench_timer (py_gc_disabled benchmark_spec) f)
                            (get_warmups benchmark_spec)
                            (get_iterations benchmark_spec) pk))).
  apply R_bind; [exact Hc|]. intros f w1 Hf.
  destruct (Hrest f w1 Hf) as [Hmem Htm].
  apply R_bind; [apply Hmem|]. intros pk w2 _.
  apply R_timing_phase. exact Htm.
Qed.

End Keeping.

(** ** The selector, branch by branch *)

Section SelectorFacts.

Context {X Value : Type} {_format : Format} {platform : Platform}.

Local Abbreviation World := (@World X).
Local Abbreviation M := (@M X).
Local Abbreviation BenchmarkSpec := (@BenchmarkSpec X Value).

Lemma run_benchmark_phases (fuel : nat) (benchmark_spec : BenchmarkSpec) :
  run_benchmark fuel benchmark_spec
  = bind (_create_test_fun benchmark_spec)
      (fun f => bind (profiling_phase f)
         (fun pk => timing_phase fuel
                      (bench_timer (py_gc_disabled benchmark_spec) f)
                      (get_warmups benchmark_spec)
                      (get_iterations benchmark_spec) pk)).
Proof. reflexivity. Qed.

(** X1. For (file, read, load_dump) the selector does not look at the file:
    it returns with the state untouched whether or not the file is there.
    Each call of the function it returns opens the file as it is then,
    has [load] read it and closes it, also when [load] raises; when the
    file is missing the call raises FileNotFoundError and the loader/dumper
    is not called. *)
Theorem X1_file_read_opens_per_call (benchmark_spec : BenchmarkSpec) (w : World) :
  get_io_type benchmark_spec = "file" ->
  get_command benchmark_spec = "read" ->
  get_api benchmark_spec = "load_dump" ->
  let path := get_input_file benchmark_spec in
  exists test_fn,
    _create_test_fun benchmark_spec w = (Ok test_fn, w) /\
    forall w2,
      (files w2 path = None ->
       test_fn w2 = (Raise (FileNotFoundError path), log (EvOpen path) w2)) /\
      (forall content, files w2 path = Some content ->
         let r := fst (load (get_loader_dumper benchmark_spec)
                         (mkFile path content) (ext w2)) in
         fst (test_fn w2)
         = match outcome r with inl v => Ok v | inr e => Raise e end /\
         trace (snd (test_fn w2))
         = trace w2 ++ [EvOpen path; EvCall OpLoad; EvClose path]).
Proof.
  intros Hio Hcmd Hapi path. subst path.
  unfold _create_test_fun. rewrite Hio, Hcmd, Hapi. simpl.
  eexists. split; [reflexivity|]. intros w2. split.
  - intros Hfile. unfold with_open_rb. simpl. now rewrite Hfile.
  - intros content Hfile. unfold with_open_rb, finally, f_close, call. simpl.
    rewrite Hfile.
    destruct (load _ _ (ext w2)) as [r x']; simpl.
    destruct (outcome r); simpl; (split; [reflexivity|now rewrite <- !app_assoc]).
Qed.

(** X2. For a supported configuration whose input is in place, one call of
    the test function makes exactly one call of the loader/dumper, and
    besides it only file traffic. *)
Theorem X2_one_collaborator_call_per_invocation
    (benchmark_spec : BenchmarkSpec) (w : World) :
  supported benchmark_spec = true ->
  input_ready benchmark_spec w ->
  exists test_fn w1,
    _create_test_fun benchmark_spec w = (Ok test_fn, w1) /\
    forall w2, files w2 = files w ->
      exists l, trace (snd (test_fn w2)) = trace w2 ++ l /\
                forallb body_event l = true /\
                count_calls l = 1%nat.
Proof.
  intros Hs Hin. apply supported_cases in Hs as ([Hio|Hio] & [Hcmd|Hcmd] & Hapi);
    unfold _create_test_fun, input_ready in *;
    rewrite Hio, Hcmd, Hapi in *; simpl.
  - specialize (Hin eq_refl).
    unfold bind, with_open_rb. simpl.
    destruct (files w (get_input_file benchmark_spec)) as [content|] eqn:Hfile;
      [|now elim Hin].
    unfold finally, f_read, f_close. simpl.
    eexists _, _. split; [reflexivity|]. intros w2 _.
    exists [EvCall OpLoads]. unfold call.
    destruct (loads _ _ (ext w2)); simpl. auto.
  - eexists _, _. split; [reflexivity|]. intros w2 _.
    exists [EvCall OpDumps]. unfold call.
    destruct (dumps _ _ (ext w2)); simpl. auto.
  - specialize (Hin eq_refl).
    eexists _, _. split; [reflexivity|]. intros w2 Hw2.
    exists [EvOpen (get_input_file benchmark_spec); EvCall OpLoad;
            EvClose (get_input_file benchmark_spec)].
    unfold with_open_rb, finally, f_close, call. simpl. rewrite Hw2.
    destruct (files w (get_input_file benchmark_spec)) as [content|] eqn:Hfile;
      [|now elim Hin].
    destruct (load _ _ (ext w2)) as [r x']; simpl.
    destruct (outcome r); simpl; (split; [now rewrite <- !app_assoc|auto]).
  - destruct (format_is_binary _ || format_is_ion _);
      (eexists _, _; split; [reflexivity|]); intros w2 _;
      (eexists [EvTmpOpen (next_tmp w2) _; EvCall (OpDump (next_tmp w2));
                EvTmpClose (next_tmp w2)]);
      unfold with_TemporaryFile, bind, TemporaryFile, finally, tmp_close, call;
      simpl; destruct (dump _ _ _ (ext w2)) as [r x']; simpl;
      destruct (outcome r); simpl; (split; [now rewrite <- !app_assoc|auto]).
Qed.

(** X3. For (buffer, read, load_dump) with the input file missing, the
    selector raises FileNotFoundError after the attempt to open, and
    [run_benchmark] raises it in that same state: nothing was profiled or
    timed. *)
Theorem X3_buffer_read_missing_file (fuel : nat)
    (benchmark_spec : BenchmarkSpec) (w : World) :
  get_io_type benchmark_spec = "buffer" ->
  get_command benchmark_spec = "read" ->
  get_api benchmark_spec = "load_dump" ->
  files w (get_input_file benchmark_spec) = None ->
  let path := get_input_file benchmark_spec in
  _create_test_fun benchmark_spec w
  = (Raise (FileNotFoundError path), log (EvOpen path) w) /\
  run_benchmark fuel benchmark_spec w
  = (Raise (FileNotFoundError path), log (EvOpen path) w).
Proof.
  intros Hio Hcmd Hapi Hfile path. subst path.
  assert (Hc : _create_test_fun benchmark_spec w
               = (Raise (FileNotFoundError (get_input_file benchmark_spec)),
                  log (EvOpen (get_input_file benchmark_spec)) w)).
  { unfold _create_test_fun. rewrite Hio, Hcmd, Hapi. simpl.
    unfold bind, with_open_rb. simpl. now rewrite Hfile. }
  split; [exact Hc|].
  rewrite run_benchmark_phases. unfold bind at 1. now rewrite Hc.
Qed.

(** X4. For (file, read, load_dump) with the input file missing, on CPython
    the selector succeeds and [run_benchmark] raises FileNotFoundError from
    the traced invocation, leaving tracing on and the collector off. *)
Theorem X4_file_read_missing_file (fuel : nat)
    (benchmark_spec : BenchmarkSpec) (w : World) :
  _pypy = false ->
  get_io_type benchmark_spec = "file" ->
  get_command benchmark_spec = "read" ->
  get_api benchmark_spec = "load_dump" ->
  files w (get_input_file benchmark_spec) = None ->
  exists w',
    run_benchmark fuel benchmark_spec w
    = (Raise (FileNotFoundError (get_input_file benchmark_spec)), w') /\
    tracing w' = true /\ gc_on w' = false.
Proof.
  intros Hpy Hio Hcmd Hapi Hfile.
  rewrite run_benchmark_phases.
  unfold bind at 1. unfold _create_test_fun. rewrite Hio, Hcmd, Hapi. simpl.
  unfold profiling_phase. rewrite Hpy.
  unfold bind, _trace_memory_allocation, bind, gc_disable, tracemalloc_start,
    invoke, with_open_rb. simpl.
  destruct (tracing w) eqn:E; simpl; rewrite Hfile;
    eexists; (split; [reflexivity|]); simpl; auto.
Qed.

Lemma create_changes_log_only (benchmark_spec : BenchmarkSpec) (w : World) :
  same_state w (snd (_create_test_fun benchmark_spec w)) /\
  exists l,
    trace (snd (_create_test_fun benchmark_spec w)) = trace w ++ l /\
    forallb body_event l = true /\ count_calls l = 0%nat.
Proof.
  assert (Hsame : forall w1 : World, w1 = w -> same_state w w1)
    by (intros w1 ->; unfold same_state; repeat split; try reflexivity; lia).
  unfold _create_test_fun.
  destruct (match_arg_eq _ _) as [E1|N1];
    [|destruct (match_arg_eq _ _) as [E2|N2];
      [|destruct (match_arg_eq _ _) as [E3|N3];
        [|destruct (match_arg_eq _ _) as [E4|N4]]]].
  - unfold bind, with_open_rb. simpl.
    destruct (files w (get_input_file benchmark_spec)) as [content|].
    + unfold finally, f_read, f_close. simpl. split.
      * unfold same_state. simpl.
        repeat split; try reflexivity; try lia;
          match goal with E : tracing w = false |- _ => now rewrite !E end.
      * exists [EvOpen (get_input_file benchmark_spec);
                EvRead (get_input_file benchmark_spec);
                EvClose (get_input_file benchmark_spec)].
        simpl. split; [now rewrite <- !app_assoc|auto].
    + simpl. split.
      * unfold same_state. simpl. repeat split; try reflexivity; lia.
      * exists [EvOpen (get_input_file benchmark_spec)]. simpl. auto.
  - simpl. split; [now apply Hsame|]. exists []. now rewrite app_nil_r.
  - simpl. split; [now apply Hsame|]. exists []. now rewrite app_nil_r.
  - destruct (format_is_binary _ || format_is_ion _); simpl;
      (split; [now apply Hsame|]); exists []; now rewrite app_nil_r.
  - simpl. split; [now apply Hsame|]. exists []. now rewrite app_nil_r.
Qed.

(** X5. Whatever the configuration and whether it returns or raises, the
    selector does not call the loader/dumper and leaves in the log file
    traffic only; it touches neither the collector nor the tracing switch,
    the files, the temporary files or the loader/dumper's state. The clock
    does not go back (reading the input file takes time), and with tracing
    off the counters of tracemalloc stay as they were. *)
Theorem X5_construction_calls_nothing (benchmark_spec : BenchmarkSpec) (w : World) :
  let w1 := snd (_create_test_fun benchmark_spec w) in
  (gc_on w1 = gc_on w /\ tracing w1 = tracing w /\
   files w1 = files w /\ next_tmp w1 = next_tmp w /\
   live_tmps w1 = live_tmps w /\ ext w1 = ext w) /\
  now w <= now w1 /\
  (tracing w = false ->
   traced_cur w1 = traced_cur w /\ traced_peak w1 = traced_peak w) /\
  exists l,
    trace w1 = trace w ++ l /\
    forallb body_event l = true /\ count_calls l = 0%nat.
Proof.
  destruct (create_changes_log_only benchmark_spec w)
    as ((Hgc & Htr & Hcnt & _ & Hnow & Hf & Hn & Hl & Hx) & Hlog).
  cbv zeta. auto 10.
Qed.

End SelectorFacts.

(** ** What a run leaves behind *)

Section RunFacts.

Context {X Value : Type} {_format : Format} {platform : Platform}.

Local Abbreviation World := (@World X).
Local Abbreviation M := (@M X).
Local Abbreviation BenchmarkSpec := (@BenchmarkSpec X Value).
Local Abbreviation Reply := (@Reply Value).

Local Notation "x <- m ;; k" := (bind m (fun x => k))
  (at level 61, m at next level, right associativity).

(** *** Temporary files *)

Lemma keeps_tmps_refl (w : World) : keeps_tmps w w.
Proof. intros H. auto. Qed.

Lemma keeps_tmps_trans (w1 w2 w3 : World) :
  keeps_tmps w1 w2 -> keeps_tmps w2 w3 -> keeps_tmps w1 w3.
Proof.
  intros H12 H23 H1. destruct (H12 H1) as [H2 E2].
  destruct (H23 H2) as [H3 E3]. split; [exact H3|congruence].
Qed.

Lemma keeps_tmps_same (w w' : World) :
  next_tmp w' = next_tmp w -> live_tmps w' = live_tmps w -> keeps_tmps w w'.
Proof. unfold keeps_tmps, tmp_wf. intros Hn Hl H. rewrite Hn, Hl. auto. Qed.

Lemma call_keeps_tmps (op : Op) (g : X -> Reply * X) (w : World) :
  keeps_tmps w (snd (call op g w)).
Proof.
  unfold call. destruct (g (ext w)) as [r x']. now apply keeps_tmps_same.
Qed.

Lemma tmp_body_keeps_tmps (binary : bool) (g : TmpFile -> X -> Reply * X)
    (w : World) :
  keeps_tmps w
    (snd (with_TemporaryFile binary
            (fun f => call (OpDump (tmp_id f)) (g f)) w)).
Proof.
  unfold keeps_tmps, tmp_wf. intros Hwf.
  unfold with_TemporaryFile, bind, TemporaryFile, finally, tmp_close, call.
  simpl. destruct (g _ (ext w)) as [r x']; simpl.
  assert (Hfresh : ~ In (next_tmp w) (live_tmps w)).
  { intros Hin. rewrite Forall_forall in Hwf. specialize (Hwf _ Hin). lia. }
  assert (Hlive : remove Nat.eq_dec (next_tmp w) (next_tmp w :: live_tmps w)
                  = live_tmps w).
  { simpl. destruct (Nat.eq_dec (next_tmp w) (next_tmp w)) as [_|N];
      [|now elim N]. now apply notin_remove. }
  simpl in Hlive.
  destruct (outcome r); simpl; rewrite Hlive;
    (split; [|reflexivity]);
    (eapply Forall_impl; [|exact Hwf]); simpl; intros; lia.
Qed.

Lemma open_body_keeps_tmps (path : string) (g : File -> X -> Reply * X)
    (w : World) :
  keeps_tmps w (snd (with_open_rb path (fun f => call OpLoad (g f)) w)).
Proof.
  unfold with_open_rb. simpl. destruct (files w path) as [content|].
  - unfold finally, f_close, call. simpl.
    destruct (g _ (ext w)) as [r x']; simpl.
    destruct (outcome r); now apply keeps_tmps_same.
  - now apply keeps_tmps_same.
Qed.

Lemma created_keeps_tmps (benchmark_spec : BenchmarkSpec) (w w1 : World)
    (f : M Value) :
  _create_test_fun benchmark_spec w = (Ok f, w1) ->
  forall w2, keeps_tmps w2 (snd (f w2)).
Proof.
  unfold _create_test_fun.
  destruct (match_arg_eq _ _) as [E1|N1];
    [|destruct (match_arg_eq _ _) as [E2|N2];
      [|destruct (match_arg_eq _ _) as [E3|N3];
        [|destruct (match_arg_eq _ _) as [E4|N4]]]].
  - intros H. apply bind_Ok in H as (buffer & w0 & _ & Hret).
    inversion Hret; subst. intros w2. apply call_keeps_tmps.
  - intros H. inversion H; subst. intros w2. apply call_keeps_tmps.
  - intros H. inversion H; subst. intros w2. apply open_body_keeps_tmps.
  - destruct (format_is_binary _ || format_is_ion _);
      intros H; inversion H; subst; intros w2; apply tmp_body_keeps_tmps.
  - discriminate.
Qed.

Lemma create_quiet (benchmark_spec : BenchmarkSpec) (w : World) :
  same_state w (snd (_create_test_fun benchmark_spec w)) /\
  exists l,
    trace (snd (_create_test_fun benchmark_spec w)) = trace w ++ l /\
    forallb body_event l = true.
Proof.
  destruct (create_changes_log_only benchmark_spec w)
    as (Hs & l & T & Hb & _).
  split; [exact Hs|]. now exists l.
Qed.

Lemma profiling_keeps_tmps (f : M Value)
    (Hf : forall w, keeps_tmps w (snd (f w))) (w : World) :
  keeps_tmps w (snd (profiling_phase f w)).
Proof.
  unfold profiling_phase. destruct _pypy; [apply keeps_tmps_refl|].
  apply (R_bind keeps_tmps keeps_tmps_trans); [|intros ? ? _; apply keeps_tmps_refl].
  unfold _trace_memory_allocation.
  apply (R_bind keeps_tmps keeps_tmps_trans);
    [now apply keeps_tmps_same|intros ? w1 _; cbv beta].
  apply (R_bind keeps_tmps keeps_tmps_trans).
  { unfold tracemalloc_start. simpl. destruct (tracing w1); now apply keeps_tmps_same. }
  intros ? w2 _; cbv beta.
  apply (R_bind keeps_tmps keeps_tmps_trans).
  { unfold invoke. eapply keeps_tmps_trans; [|apply Hf]. now apply keeps_tmps_same. }
  intros ? w3 _; cbv beta.
  apply (R_bind keeps_tmps keeps_tmps_trans);
    [now apply keeps_tmps_same|intros ? w4 _; cbv beta].
  apply (R_bind keeps_tmps keeps_tmps_trans);
    [now apply keeps_tmps_same|intros ? w5 _; cbv beta].
  apply (R_bind keeps_tmps keeps_tmps_trans);
    [now apply keeps_tmps_same|intros ? w6 _; cbv beta].
  apply keeps_tmps_refl.
Qed.

(** X8. Whatever the configuration and however the run ends (a result, an
    exception, or the calibration loop cut short), [run_benchmark] leaves
    the temporary files as it found them: every file a call of the test
    function created is gone. *)
Theorem X8_no_temporary_file_left (fuel : nat)
    (benchmark_spec : BenchmarkSpec) (w : World) :
  tmp_wf w ->
  live_tmps (snd (run_benchmark fuel benchmark_spec w)) = live_tmps w /\
  tmp_wf (snd (run_benchmark fuel benchmark_spec w)).
Proof.
  intros Hwf.
  assert (H : keeps_tmps w (snd (run_benchmark fuel benchmark_spec w))).
  { apply (R_run_benchmark keeps_tmps keeps_tmps_refl keeps_tmps_trans).
    - destruct (create_quiet benchmark_spec w)
        as ((_ & _ & _ & _ & _ & _ & Hn & Hl & _) & _).
      now apply keeps_tmps_same.
    - intros f w1 Hc.
      pose proof (created_keeps_tmps _ _ _ _ Hc) as Hf. split.
      + intros w2. now apply profiling_keeps_tmps.
      + intros number w2.
        apply (R_timeit keeps_tmps keeps_tmps_refl keeps_tmps_trans);
          try (intros; now apply keeps_tmps_same). exact Hf. }
  destruct (H Hwf) as [Hwf' Hlive]. auto.
Qed.

(** *** tracemalloc and the collector *)

Lemma untraced_refl (w : World) : untraced w w.
Proof. split; [reflexivity|]. exists []. now rewrite app_nil_r. Qed.

Lemma untraced_trans (w1 w2 w3 : World) :
  untraced w1 w2 -> untraced w2 w3 -> untraced w1 w3.
Proof.
  intros (T1 & l1 & E1 & F1) (T2 & l2 & E2 & F2).
  split; [congruence|]. exists (l1 ++ l2).
  split; [now rewrite E2, E1, app_assoc|].
  now rewrite forallb_app, F1, F2.
Qed.

Lemma untraced_log (e : Event) (w w' : World) :
  is_tracemalloc e = false ->
  tracing w' = tracing w -> trace w' = trace w ++ [e] -> untraced w w'.
Proof.
  intros He Ht Hl. split; [exact Ht|]. exists [e].
  split; [exact Hl|]. simpl. now rewrite He.
Qed.

Lemma body_not_tracemalloc (l : list Event) :
  forallb body_event l = true ->
  forallb (fun e => negb (is_tracemalloc e)) l = true.
Proof.
  induction l as [|e l IH]; simpl; intros Hl; [reflexivity|].
  apply andb_true_iff in Hl as [He Hl]. rewrite (IH Hl).
  destruct e; try discriminate He; reflexivity.
Qed.

Lemma body_only_untraced (f : M Value) (Hf : body_only f) (w : World) :
  untraced w (snd (f w)).
Proof.
  destruct (Hf w) as (l & [T _ _] & Hb & _ & Ht & _).
  split; [exact Ht|]. exists l. split; [exact T|now apply body_not_tracemalloc].
Qed.

Lemma timeit_untraced (flag : bool) (f : M Value) (Hf : body_only f)
    (number : Z) (w : World) :
  untraced w (snd (Timer_timeit (bench_timer flag f) number w)).
Proof.
  apply (R_timeit untraced untraced_refl untraced_trans) with (f := f).
  - intros w0. now apply (untraced_log EvGcDisable).
  - intros w0. now apply (untraced_log EvGcEnable).
  - intros w0. now apply (untraced_log (EvTimer (now w0) (gc_on w0))).
  - intros w0. now apply (untraced_log (EvInvoke (gc_on w0) (tracing w0))).
  - now apply body_only_untraced.
Qed.

Lemma stays_enabled_refl (w : World) : stays_enabled w w.
Proof. intros H. exact H. Qed.

Lemma stays_enabled_trans (w1 w2 w3 : World) :
  stays_enabled w1 w2 -> stays_enabled w2 w3 -> stays_enabled w1 w3.
Proof. unfold stays_enabled. auto. Qed.

Lemma for_range_ends (f : M Value) (Hf : body_only f) (n : nat) :
  forall w, fst (for_range n (invoke f) w) <> OutOfFuel.
Proof.
  induction n as [|n IH]; intros w; simpl; [discriminate|].
  unfold bind.
  destruct (Hf (log (EvInvoke (gc_on w) (tracing w)) w)) as (_ & _ & _ & _ & _ & He).
  change (invoke f w) with (f (log (EvInvoke (gc_on w) (tracing w)) w)).
  destruct (f (log (EvInvoke (gc_on w) (tracing w)) w)) as [[v|e|] w1];
    simpl in *; [apply IH|discriminate|now elim He].
Qed.

Lemma inner_ends (flag : bool) (f : M Value) (Hf : body_only f)
    (number : Z) (w : World) :
  fst (inner (bench_timer flag f) number w) <> OutOfFuel.
Proof.
  unfold inner. rewrite exec_setup_flag. unfold bind.
  destruct ((if flag then gc_disable else gc_enable) w) as [[u|e|] w1] eqn:Es;
    [|destruct flag; discriminate Es|destruct flag; discriminate Es].
  simpl.
  pose proof (for_range_ends f Hf (Z.to_nat number)
                (log (EvTimer (now w1) (gc_on w1)) w1)) as Hl.
  destruct (for_range (Z.to_nat number) (invoke f)
              (log (EvTimer (now w1) (gc_on w1)) w1)) as [[u'|e|] w2];
    simpl in *; [discriminate|discriminate|now elim Hl].
Qed.

Lemma timeit_stays_enabled (flag : bool) (f : M Value) (Hf : body_only f)
    (number : Z) (w : World) :
  stays_enabled w (snd (Timer_timeit (bench_timer flag f) number w)).
Proof.
  intros Hgc. unfold Timer_timeit, bind, gc_isenabled, gc_disable, finally.
  rewrite Hgc.
  pose proof (inner_ends flag f Hf number (log EvGcDisable (set_gc false w))) as He.
  destruct (inner (bench_timer flag f) number (log EvGcDisable (set_gc false w)))
    as [[t|e|] w1]; simpl in *; [reflexivity|reflexivity|now elim He].
Qed.

(** X6. On CPython a run that returns leaves the collector enabled and
    tracing off, whatever py_gc_disabled says and whatever they were
    before. *)
Theorem X6_collector_enabled_after_run (fuel : nat)
    (benchmark_spec : BenchmarkSpec) (w w' : World) (r : BenchmarkResult) :
  _pypy = false ->
  run_benchmark fuel benchmark_spec w = (Ok r, w') ->
  gc_on w' = true /\ tracing w' = false.
Proof.
  intros Hpy Hrun. rewrite run_benchmark_phases in Hrun.
  apply bind_Ok in Hrun as (f & w1 & Hc & Hrun).
  destruct (create_ok _ _ _ _ Hc) as (Hf & _).
  apply bind_Ok in Hrun as (pk & w2 & Hmem & Htim).
  unfold profiling_phase in Hmem. rewrite Hpy in Hmem.
  apply bind_Ok in Hmem as (p & w2' & Hmem & Hret).
  inversion Hret; subst w2' pk; clear Hret.
  apply (trace_memory_ok f Hf) in Hmem as (body & _ & _ & Hgc & Htr & _).
  set (tm := bench_timer (py_gc_disabled benchmark_spec) f) in *.
  assert (Hw' : w' = snd (timing_phase fuel tm (get_warmups benchmark_spec)
                            (get_iterations benchmark_spec) (Some p) w2))
    by now rewrite Htim.
  split.
  - pose proof (R_timing_phase stays_enabled stays_enabled_refl stays_enabled_trans
                  tm (timeit_stays_enabled _ f Hf) fuel
                  (get_warmups benchmark_spec) (get_iterations benchmark_spec)
                  (Some p) w2) as H.
    rewrite <- Hw' in H. now apply H.
  - pose proof (R_timing_phase untraced untraced_refl untraced_trans
                  tm (timeit_untraced _ f Hf) fuel
                  (get_warmups benchmark_spec) (get_iterations benchmark_spec)
                  (Some p) w2) as (H & _).
    rewrite <- Hw' in H. congruence.
Qed.

(** X7. On PyPy, however the run ends, tracemalloc is never touched (no
    tracemalloc call in the log, tracing as it was), and a collector that
    was enabled at the call is enabled at the end, also when py_gc_disabled
    is set. *)
Theorem X7_pypy_run_leaves_tracing_and_collector (fuel : nat)
    (benchmark_spec : BenchmarkSpec) (w : World) :
  _pypy = true ->
  untraced w (snd (run_benchmark fuel benchmark_spec w)) /\
  stays_enabled w (snd (run_benchmark fuel benchmark_spec w)).
Proof.
  intros Hpy.
  destruct (create_quiet benchmark_spec w)
    as ((Hgc & Htr & _) & l & T & Hb). split.
  - apply (R_run_benchmark untraced untraced_refl untraced_trans).
    + split; [exact Htr|]. exists l.
      split; [exact T|now apply body_not_tracemalloc].
    + intros f w1 Hc. destruct (create_ok _ _ _ _ Hc) as (Hf & _). split.
      * intros w2. unfold profiling_phase. rewrite Hpy. apply untraced_refl.
      * intros number w2. now apply timeit_untraced.
  - apply (R_run_benchmark stays_enabled stays_enabled_refl stays_enabled_trans).
    + intros H. congruence.
    + intros f w1 Hc. destruct (create_ok _ _ _ _ Hc) as (Hf & _). split.
      * intros w2. unfold profiling_phase. rewrite Hpy. apply stays_enabled_refl.
      * intros number w2. now apply timeit_stays_enabled.
Qed.

(** *** The timings *)

Lemma timeit_nonneg (flag : bool) (f : M Value) (Hf : body_only f)
    (number : Z) (w w' : World) (t : Z) :
  Timer_timeit (bench_timer flag f) number w = (Ok t, w') -> 0 <= t.
Proof.
  unfold Timer_timeit. intros H.
  apply bind_Ok in H as (gcold & w1 & _ & H).
  apply bind_Ok in H as (u1 & w2 & _ & H).
  apply finally_Ok in H as (w3 & u3 & Hinner & _).
  unfold inner in Hinner.
  apply bind_Ok in Hinner as (u4 & w4 & _ & Hinner).
  apply bind_Ok in Hinner as (t0 & w5 & Ht0 & Hinner).
  apply bind_Ok in Hinner as (u6 & w6 & Hloop & Hinner).
  apply bind_Ok in Hinner as (t1 & w7 & Ht1 & Hret).
  inversion Hret; subst; clear Hret.
  simpl in Ht0, Ht1. inversion Ht0; subst; clear Ht0.
  inversion Ht1; subst; clear Ht1.
  apply (for_range_ok f Hf) in Hloop as (l & [_ _ C] & _).
  simpl in C. lia.
Qed.

Lemma repeat_from_all (P : Z -> Prop) (tm : @Timer X Value) (number : Z)
    (HP : forall w t w', Timer_timeit tm number w = (Ok t, w') -> P t)
    (n : nat) :
  forall r w w' ts,
    repeat_from tm number n r w = (Ok ts, w') ->
    Forall P r -> Forall P ts.
Proof.
  induction n as [|n IH]; intros r w w' ts H Hr; simpl in H.
  - inversion H; subst. exact Hr.
  - apply bind_Ok in H as (t1 & w1 & Htime & H).
    apply (IH _ _ _ _ H). apply Forall_app. split; [exact Hr|].
    constructor; [|constructor]. exact (HP _ _ _ Htime).
Qed.

(** X10. In a run that returns, no timing is negative. *)
Theorem X10_timings_not_negative (fuel : nat)
    (benchmark_spec : BenchmarkSpec) (w w' : World) (r : BenchmarkResult) :
  run_benchmark fuel benchmark_spec w = (Ok r, w') ->
  Forall (fun t => 0 <= t) (timings r).
Proof.
  intros Hrun. rewrite run_benchmark_phases in Hrun.
  apply bind_Ok in Hrun as (f & w1 & Hc & Hrun).
  destruct (create_ok _ _ _ _ Hc) as (Hf & _).
  apply bind_Ok in Hrun as (pk & w2 & _ & Htim).
  unfold timing_phase in Htim.
  apply bind_Ok in Htim as (tw & w3 & _ & Htim).
  apply bind_Ok in Htim as ([b tc] & w4 & _ & Htim).
  apply bind_Ok in Htim as (ts & w5 & Hrep & Hret).
  inversion Hret; subst; clear Hret. simpl.
  unfold Timer_repeat in Hrep.
  apply (repeat_from_all (fun t => 0 <= t)) in Hrep; [exact Hrep| |constructor].
  intros w0 t w0'. apply timeit_nonneg. exact Hf.
Qed.

Lemma repeat_total_min (flag : bool) (f : M Value) (Hb : body_only f)
    (F : string -> option bytes) (Hr : reliable f F) (number : Z) (n : nat) :
  forall r w, files w = F ->
    Forall (fun t => Z.of_nat (Z.to_nat number) <= t) r ->
    exists ts w', repeat_from (bench_timer flag f) number n r w = (Ok ts, w') /\
                  Forall (fun t => Z.of_nat (Z.to_nat number) <= t) ts.
Proof.
  induction n as [|n IH]; intros r w Hw Hall; simpl.
  - now exists r, w.
  - unfold bind.
    destruct (timeit_total flag f Hb F Hr number w Hw) as (t & w1 & Htime & Hw1 & Ht).
    rewrite Htime. apply IH; [exact Hw1|].
    apply Forall_app. split; [exact Hall|]. constructor; [exact Ht|constructor].
Qed.

Lemma profiling_files (f : M Value) (Hf : body_only f) (w w' : World)
    (pk : option Z) :
  profiling_phase f w = (Ok pk, w') -> files w' = files w.
Proof.
  unfold profiling_phase. destruct _pypy.
  - intros H. now inversion H.
  - intros H. apply bind_Ok in H as (p & w1 & Hmem & Hret).
    inversion Hret; subst.
    now apply (trace_memory_ok f Hf) in Hmem as (_ & _ & _ & _ & _ & Hfi & _).
Qed.

(** X9. For a supported configuration whose input is in place and whose
    loader/dumper returns and takes at least a nanosecond per call, the
    calibration stops at its first attempt: the result has a batch size
    of 1, and every timing is at least 1 ns. *)
Theorem X9_measurable_calls_give_batch_size_one (fuel : nat)
    (benchmark_spec : BenchmarkSpec) (w : World) :
  supported benchmark_spec = true ->
  input_ready benchmark_spec w ->
  never_raises (get_loader_dumper benchmark_spec) ->
  measurable (get_loader_dumper benchmark_spec) ->
  exists r w',
    run_benchmark (S fuel) benchmark_spec w = (Ok r, w') /\
    batch_size r = 1 /\
    Forall (fun t => 1 <= t) (timings r).
Proof.
  intros Hs Hin Hnr Hm.
  destruct (run_total fuel benchmark_spec w Hs Hin Hnr Hm) as (r & w' & Hrun).
  exists r, w'. split; [exact Hrun|].
  destruct (create_total benchmark_spec w Hs Hin) as (f0 & w10 & Hc0 & _ & Hruns).
  pose proof (runs_reliable benchmark_spec f0 (files w) Hnr Hm Hruns) as Hr.
  rewrite run_benchmark_phases in Hrun.
  apply bind_Ok in Hrun as (f & w1 & Hc & Hrun).
  rewrite Hc0 in Hc. inversion Hc; subst f w1; clear Hc.
  destruct (create_ok _ _ _ _ Hc0) as (Hb & l0 & [_ Hf1 _] & _).
  apply bind_Ok in Hrun as (pk & w2 & Hmem & Htim).
  apply (profiling_files f0 Hb) in Hmem.
  unfold timing_phase in Htim.
  apply bind_Ok in Htim as (tw & w3 & Hwarm & Htim).
  apply (timeit_ok _ f0 Hb) in Hwarm as (lw & [_ Hf3 _] & _).
  apply bind_Ok in Htim as ([b tc] & w4 & Hauto & Htim).
  destruct (autorange_total (py_gc_disabled benchmark_spec) f0 Hb (files w) Hr
              fuel w3) as (t & w4' & Hauto' & Hf4); [congruence|].
  rewrite Hauto' in Hauto. inversion Hauto; subst b tc w4'; clear Hauto.
  apply bind_Ok in Htim as (ts & w5 & Hrep & Hret).
  inversion Hret; subst; clear Hret. simpl. split; [reflexivity|].
  unfold Timer_repeat in Hrep.
  destruct (repeat_total_min (py_gc_disabled benchmark_spec) f0 Hb (files w) Hr 1
              (Z.to_nat (get_iterations benchmark_spec)) [] w4 Hf4)
    as (ts' & w5' & Hrep' & Hall); [constructor|].
  rewrite Hrep' in Hrep. inversion Hrep; subst. exact Hall.
Qed.

(** *** Failures are not masked *)

Lemma timeit_zero (flag : bool) (f : M Value) (number : Z) (w : World) :
  Z.to_nat number = 0%nat ->
  exists t w', Timer_timeit (bench_timer flag f) number w = (Ok t, w') /\
               files w' = files w.
Proof.
  intros Hz. unfold Timer_timeit, bind, gc_isenabled, gc_disable, finally, inner.
  rewrite exec_setup_flag, Hz. unfold bind. simpl.
  destruct flag, (gc_on w); simpl; eexists _, _; split; reflexivity.
Qed.

Lemma timeit_raises (flag : bool) (f : M Value) (F : string -> option bytes)
    (e : PyExn) (Hfail : forall w, files w = F -> fst (f w) = Raise e)
    (number : Z) (w : World) :
  files w = F -> Z.to_nat number <> 0%nat ->
  fst (Timer_timeit (bench_timer flag f) number w) = Raise e.
Proof.
  intros Hw Hn. unfold Timer_timeit, bind, gc_isenabled, gc_disable, finally, inner.
  rewrite exec_setup_flag. unfold bind.
  destruct (Z.to_nat number) as [|n]; [now elim Hn|].
  assert (Hstep : forall w0, files w0 = F ->
            exists w1, bind (invoke f) (fun _ => for_range n (invoke f)) w0
                       = (Raise e, w1)).
  { intros w0 Hw0. unfold bind, invoke.
    pose proof (Hfail (log (EvInvoke (gc_on w0) (tracing w0)) w0) Hw0) as Hf.
    destruct (f (log (EvInvoke (gc_on w0) (tracing w0)) w0)) as [res w1].
    simpl in Hf. subst res. now exists w1. }
  destruct flag; simpl;
    match goal with |- context [bind (invoke f) ?k ?u] =>
      destruct (Hstep u Hw) as (w1 & ->) end;
    destruct (gc_on w); reflexivity.
Qed.

Lemma trace_memory_raises (f : M Value) (F : string -> option bytes)
    (e : PyExn) (Hfail : forall w, files w = F -> fst (f w) = Raise e)
    (w : World) :
  files w = F -> fst (_trace_memory_allocation f w) = Raise e.
Proof.
  intros Hw.
  unfold _trace_memory_allocation, bind, gc_disable, tracemalloc_start, invoke.
  simpl.
  match goal with |- context [f ?u] =>
    assert (Hu : files u = F) by (destruct (tracing w); exact Hw);
    pose proof (Hfail u Hu) as Hf; destruct (f u) as [res w1]
  end.
  simpl in Hf. now subst res.
Qed.

(** X11. For a supported configuration whose input is in place, when the
    loader/dumper raises [e] at every call, [run_benchmark] raises [e]: on
    CPython from the traced invocation, on PyPy from the warm-up or, with
    no warm-up, from the first calibration attempt. *)
Theorem X11_loader_failure_propagates (fuel : nat)
    (benchmark_spec : BenchmarkSpec) (w : World) (e : PyExn) :
  supported benchmark_spec = true ->
  input_ready benchmark_spec w ->
  always_raises (get_loader_dumper benchmark_spec) e ->
  fst (run_benchmark (S fuel) benchmark_spec w) = Raise e.
Proof.
  intros Hs Hin Har.
  destruct (create_total benchmark_spec w Hs Hin) as (f & w1 & Hc & Hsame & Hruns).
  destruct Hsame as (_ & _ & _ & _ & _ & Hf1 & _).
  assert (Hfail : forall w2, files w2 = files w -> fst (f w2) = Raise e).
  { intros w2 Hw2. destruct (Hruns w2 Hw2) as (g & Hg & Hfst & _).
    rewrite Hfst, (Har _ (test_call_answer _ _ _ (ext w2) Hg)). reflexivity. }
  rewrite run_benchmark_phases. unfold bind at 1. rewrite Hc.
  unfold bind at 1, profiling_phase. destruct _pypy.
  - simpl. unfold timing_phase.
    set (tm := bench_timer (py_gc_disabled benchmark_spec) f).
    destruct (Nat.eq_dec (Z.to_nat (get_warmups benchmark_spec)) 0) as [Hz|Hnz].
    + destruct (timeit_zero (py_gc_disabled benchmark_spec) f
                  (get_warmups benchmark_spec) w1 Hz) as (tw & w2 & Hwarm & Hf2).
      fold tm in Hwarm. unfold bind at 1. rewrite Hwarm.
      unfold Timer_autorange. simpl. unfold bind at 1. unfold bind at 1.
      pose proof (timeit_raises (py_gc_disabled benchmark_spec) f (files w) e
                    Hfail 1 w2) as Hr.
      fold tm in Hr.
      destruct (Timer_timeit tm 1 w2) as [res w3]. simpl in Hr.
      rewrite Hr; [reflexivity|congruence|lia].
    + pose proof (timeit_raises (py_gc_disabled benchmark_spec) f (files w) e
                    Hfail (get_warmups benchmark_spec) w1 Hf1 Hnz) as Hr.
      fold tm in Hr. unfold bind at 1.
      destruct (Timer_timeit tm (get_warmups benchmark_spec) w1) as [res w2].
      simpl in Hr. now subst res.
  - unfold bind at 1.
    pose proof (trace_memory_raises f (files w) e Hfail w1 Hf1) as Hr.
    destruct (_trace_memory_allocation f w1) as [res w2].
    simpl in Hr. now subst res.
Qed.

(** *** What the settings of the timing do not reach *)

(** X12. The peak memory of the result does not depend on the warm-up
    count, the iteration count or py_gc_disabled: two runs from the same
    state that differ in these only, and return, report the same peak. *)
Theorem X12_peak_memory_ignores_timing_settings (fuel fuel' : nat)
    (benchmark_spec : BenchmarkSpec) (warmups iterations : Z)
    (gc_disabled : bool) (w w1 w2 : World) (r1 r2 : BenchmarkResult) :
  run_benchmark fuel benchmark_spec w = (Ok r1, w1) ->
  run_benchmark fuel'
    (with_timing_settings benchmark_spec warmups iterations gc_disabled) w
  = (Ok r2, w2) ->
  peak_memory_usage r2 = peak_memory_usage r1.
Proof.
  intros H1 H2. rewrite run_benchmark_phases in H1, H2.
  apply bind_Ok in H1 as (f & wa & Hc1 & H1).
  apply bind_Ok in H2 as (f' & wa' & Hc2 & H2).
  pose proof (eq_trans (eq_sym Hc1) Hc2) as E; inversion E; subst f' wa'; clear E Hc2.
  apply bind_Ok in H1 as (pk & wb & Hm1 & H1).
  apply bind_Ok in H2 as (pk' & wb' & Hm2 & H2).
  rewrite Hm1 in Hm2; inversion Hm2; subst pk' wb'; clear Hm2.
  unfold timing_phase in H1, H2.
  apply bind_Ok in H1 as (tw & wc & _ & H1).
  apply bind_Ok in H2 as (tw' & wc' & _ & H2).
  apply bind_Ok in H1 as ([b tc] & wd & _ & H1).
  apply bind_Ok in H2 as ([b' tc'] & wd' & _ & H2).
  apply bind_Ok in H1 as (ts & we & _ & H1).
  apply bind_Ok in H2 as (ts' & we' & _ & H2).
  inversion H1; inversion H2; subst. reflexivity.
Qed.

(** *** The calibration schedule *)

Lemma autorange_for_number (tm : @Timer X Value) (i : Z) (next : M (Z * Z))
    (js : list Z) :
  forall w n t w',
    autorange_for tm i js next w = (Ok (n, t), w') ->
    (exists j, In j js /\ n = i * j) \/
    (exists w1, next w1 = (Ok (n, t), w')).
Proof.
  induction js as [|j js IH]; intros w n t w' H; simpl in H.
  - right. now exists w.
  - apply bind_Ok in H as (t1 & w1 & _ & H).
    destruct (reaches_threshold t1).
    + inversion H; subst. left. exists j. split; [now left|reflexivity].
    + apply IH in H as [(j' & Hin & Hn)|Hnext]; [left|now right].
      exists j'. split; [now right|exact Hn].
Qed.

Lemma autorange_from_number (tm : @Timer X Value) (fuel : nat) :
  forall (k0 : nat) w n t w',
    autorange_from fuel tm (10 ^ Z.of_nat k0) w = (Ok (n, t), w') ->
    exists (k : nat) j,
      (k0 <= k < k0 + fuel)%nat /\ In j [1; 2; 5] /\ n = j * 10 ^ Z.of_nat k.
Proof.
  induction fuel as [|fuel IH]; intros k0 w n t w' H.
  - discriminate H.
  - change (autorange_for tm (10 ^ Z.of_nat k0) [1; 2; 5]
              (autorange_from fuel tm (10 ^ Z.of_nat k0 * 10)) w
            = (Ok (n, t), w')) in H.
    apply autorange_for_number in H as [(j & Hin & Hn)|(w1 & Hnext)].
    + exists k0, j. split; [lia|]. split; [exact Hin|lia].
    + replace (10 ^ Z.of_nat k0 * 10) with (10 ^ Z.of_nat (S k0)) in Hnext
        by (rewrite Nat2Z.inj_succ, Z.pow_succ_r; lia).
      apply IH in Hnext as (k & j & Hk & Hin & Hn).
      exists k, j. split; [lia|]. split; [exact Hin|exact Hn].
Qed.

(** X13. In a run that returns, the batch size is 1, 2 or 5 times a power
    of ten, the power below the number of rounds the calibration was
    allowed. *)
Theorem X13_batch_size_on_schedule (fuel : nat)
    (benchmark_spec : BenchmarkSpec) (w w' : World) (r : BenchmarkResult) :
  run_benchmark fuel benchmark_spec w = (Ok r, w') ->
  exists (k : nat) j,
    (k < fuel)%nat /\ In j [1; 2; 5] /\ batch_size r = j * 10 ^ Z.of_nat k.
Proof.
  intros Hrun. rewrite run_benchmark_phases in Hrun.
  apply bind_Ok in Hrun as (f & w1 & _ & Hrun).
  apply bind_Ok in Hrun as (pk & w2 & _ & Htim).
  unfold timing_phase in Htim.
  apply bind_Ok in Htim as (tw & w3 & _ & Htim).
  apply bind_Ok in Htim as ([b tc] & w4 & Hauto & Htim).
  apply bind_Ok in Htim as (ts & w5 & _ & Hret).
  inversion Hret; subst; clear Hret. simpl.
  unfold Timer_autorange in Hauto.
  change 1 with (10 ^ Z.of_nat 0) in Hauto.
  apply autorange_from_number in Hauto as (k & j & Hk & Hin & Hn).
  exists k, j. split; [lia|]. split; [exact Hin|exact Hn].
Qed.

End RunFacts.

(** ** The collector in the samples, however the run ends *)

Section SampleFacts.

Context {X Value : Type} {_format : Format} {platform : Platform}.

Local Abbreviation World := (@World X).
Local Abbreviation M := (@M X).
Local Abbreviation BenchmarkSpec := (@BenchmarkSpec X Value).

Local Notation "x <- m ;; k" := (bind m (fun x => k))
  (at level 61, m at next level, right associativity).

Lemma unread_refl (w : World) : unread w w.
Proof. exists []. split; [now rewrite app_nil_r|reflexivity]. Qed.

Lemma unread_trans (w1 w2 w3 : World) :
  unread w1 w2 -> unread w2 w3 -> unread w1 w3.
Proof.
  intros (l1 & T1 & H1) (l2 & T2 & H2). exists (l1 ++ l2).
  split; [now rewrite T2, T1, app_assoc|].
  unfold untimed in *. now rewrite forallb_app, H1, H2.
Qed.

Lemma unread_log (e : Event) (w w' : World) :
  is_timer e = false -> trace w' = trace w ++ [e] -> unread w w'.
Proof.
  intros He T. exists [e]. split; [exact T|].
  unfold untimed. simpl. now rewrite He.
Qed.

Lemma body_only_unread (f : M Value) (Hf : body_only f) (w : World) :
  unread w (snd (f w)).
Proof.
  destruct (Hf w) as (l & [T _ _] & Hb & _).
  exists l. split; [exact T|]. now apply body_untimed.
Qed.

Lemma profiling_unread (f : M Value) (Hf : body_only f) (w : World) :
  unread w (snd (profiling_phase f w)).
Proof.
  unfold profiling_phase. destruct _pypy; [apply unread_refl|].
  apply (R_bind unread unread_trans); [|intros ? ? _; apply unread_refl].
  unfold _trace_memory_allocation.
  apply (R_bind unread unread_trans);
    [now apply (unread_log EvGcDisable)|intros ? w1 _; cbv beta].
  apply (R_bind unread unread_trans).
  { apply (unread_log EvTraceStart); [reflexivity|].
    unfold tracemalloc_start. simpl. now destruct (tracing w1). }
  intros ? w2 _; cbv beta.
  apply (R_bind unread unread_trans).
  { unfold invoke. eapply unread_trans; [|now apply body_only_unread].
    now apply (unread_log (EvInvoke (gc_on w2) (tracing w2))). }
  intros ? w3 _; cbv beta.
  apply (R_bind unread unread_trans);
    [now apply (unread_log EvGetTraced)|intros ? w4 _; cbv beta].
  apply (R_bind unread unread_trans);
    [now apply (unread_log EvTraceStop)|intros ? w5 _; cbv beta].
  apply (R_bind unread unread_trans);
    [now apply (unread_log EvGcEnable)|intros ? w6 _; cbv beta].
  apply unread_refl.
Qed.

Lemma timed_unread (flag : bool) {A} (m : M A) (w : World) :
  unread w (snd (m w)) -> timed_at flag m w.
Proof.
  intros (l & T & Hl). exists l. split; [exact T|].
  unfold samples_of. rewrite (scan_untimed l Hl). simpl.
  repeat split; auto.
Qed.

Lemma timed_bind (flag : bool) {A B} (m : M A) (k : A -> M B) (w : World) :
  timed_at flag m w ->
  (forall a w1, m w = (Ok a, w1) -> timed_at flag (k a) w1) ->
  timed_at flag (bind m k) w.
Proof.
  intros (l1 & T1 & S1 & P1 & N1) Hk. unfold timed_at, bind.
  destruct (m w) as [[a|e|] w1] eqn:Hm; simpl in *.
  - destruct (Hk a w1 eq_refl) as (l2 & T2 & S2 & P2 & N2).
    specialize (N1 a eq_refl).
    exists (l1 ++ l2). split; [now rewrite T2, T1, app_assoc|].
    unfold samples_of in *. rewrite scan_app, N1. simpl.
    split; [now apply Forall_app|]. split; [exact P2|exact N2].
  - exists l1. repeat split; auto. discriminate.
  - exists l1. repeat split; auto. discriminate.
Qed.

(** The loop of one sample, however it ends: some invocations, all with the
    collector as it was at the start. *)
Lemma for_range_any (f : M Value) (Hf : body_only f) (n : nat) :
  forall w, exists l k,
    trace (snd (for_range n (invoke f) w)) = trace w ++ l /\
    gc_on (snd (for_range n (invoke f) w)) = gc_on w /\
    forall t0 g0 calls,
      scan (Some (t0, g0, calls)) l
      = ([], Some (t0, g0, calls ++ repeat (gc_on w) k)).
Proof.
  induction n as [|n IH]; intros w.
  - exists [], 0%nat. simpl. rewrite app_nil_r. repeat split.
    intros t0 g0 calls. now rewrite app_nil_r.
  - change (for_range (S n) (invoke f) w)
      with (bind (invoke f) (fun _ => for_range n (invoke f)) w).
    unfold bind.
    set (w0 := log (EvInvoke (gc_on w) (tracing w)) w).
    change (invoke f w) with (f w0).
    destruct (Hf w0) as (l1 & [T1 _ _] & Hb1 & Hg1 & _).
    assert (Hhead : forall t0 g0 calls,
               scan (Some (t0, g0, calls)) (EvInvoke (gc_on w) (tracing w) :: l1)
               = ([], Some (t0, g0, calls ++ [gc_on w]))).
    { intros t0 g0 calls.
      change (EvInvoke (gc_on w) (tracing w) :: l1)
        with ([EvInvoke (gc_on w) (tracing w)] ++ l1).
      rewrite scan_app. simpl. now rewrite scan_body. }
    destruct (f w0) as [[v|e|] w1]; simpl in *.
    + destruct (IH w1) as (l2 & k & T2 & G2 & S2).
      exists ((EvInvoke (gc_on w) (tracing w) :: l1) ++ l2), (S k).
      split; [rewrite T2, T1; simpl; now rewrite <- !app_assoc|].
      split; [congruence|].
      intros t0 g0 calls. rewrite scan_app, Hhead. simpl.
      rewrite S2, Hg1. simpl. now rewrite <- app_assoc.
    + exists (EvInvoke (gc_on w) (tracing w) :: l1), 1%nat.
      split; [rewrite T1; simpl; now rewrite <- !app_assoc|].
      split; [exact Hg1|]. exact Hhead.
    + exists (EvInvoke (gc_on w) (tracing w) :: l1), 1%nat.
      split; [rewrite T1; simpl; now rewrite <- !app_assoc|].
      split; [exact Hg1|]. exact Hhead.
Qed.

Lemma repeat_all (b : bool) (k : nat) : Forall (fun gc => gc = b) (repeat b k).
Proof. apply Forall_forall. intros gc Hin. now apply repeat_spec in Hin. Qed.

(** One [timeit], however it ends. *)
Lemma timed_timeit (flag : bool) (f : M Value) (Hf : body_only f)
    (number : Z) (w : World) :
  timed_at flag (Timer_timeit (bench_timer flag f) number) w.
Proof.
  unfold timed_at, Timer_timeit, bind, gc_isenabled, gc_disable, finally, inner.
  rewrite exec_setup_flag. unfold bind. simpl (gc_on w).
  set (cleanup := if gc_on w then gc_enable else ret tt).
  set (setup_ev := if flag then EvGcDisable else EvGcEnable).
  set (w2 := snd ((if flag then gc_disable else gc_enable)
                    (log EvGcDisable (set_gc false w)))).
  assert (Hsetup : (if flag then gc_disable else gc_enable)
                     (log EvGcDisable (set_gc false w)) = (Ok tt, w2))
    by (subst w2; now destruct flag).
  assert (T2 : trace w2 = trace w ++ [EvGcDisable; setup_ev])
    by (subst w2 setup_ev; destruct flag; simpl; now rewrite <- app_assoc).
  assert (G2 : gc_on w2 = negb flag) by (subst w2; now destruct flag).
  rewrite Hsetup.
  change (timer (bench_timer flag f)) with (perf_counter_ns (X:=X)).
  change (stmt (bench_timer flag f)) with f.
  change (perf_counter_ns w2)
    with (Ok (now w2), log (EvTimer (now w2) (gc_on w2)) w2).
  cbv iota beta.
  set (w3 := log (EvTimer (now w2) (gc_on w2)) w2).
  destruct (for_range_any f Hf (Z.to_nat number) w3) as (l & k & T & G & S).
  assert (Hpre : scan None [EvGcDisable; setup_ev; EvTimer (now w2) (gc_on w2)]
                 = ([], Some (now w2, gc_on w2, []))).
  { subst setup_ev. destruct flag; reflexivity. }
  set (restore := if gc_on w then [EvGcEnable] else @nil Event).
  assert (Hrestore : forall (w4 : World),
             exists w5, cleanup w4 = (Ok tt, w5)
                        /\ trace w5 = trace w4 ++ restore).
  { intros w4. subst restore cleanup. destruct (gc_on w); eexists; split;
      try reflexivity. simpl. now rewrite app_nil_r. }
  clearbody cleanup.
  assert (Hquiet : forall st, scan st restore = ([], st)).
  { intros st. subst restore. destruct (gc_on w); [|reflexivity].
    destruct st as [[[t0 g0] calls]|]; reflexivity. }
  destruct (for_range (Z.to_nat number) (invoke f) w3) as [[u|e|] w4];
    simpl in T, G.
  - unfold perf_counter_ns, ret. simpl.
    destruct (Hrestore (log (EvTimer (now w4) (gc_on w4)) w4)) as (w5 & -> & T5).
    exists ([EvGcDisable; setup_ev; EvTimer (now w2) (gc_on w2)]
            ++ l ++ [EvTimer (now w4) (gc_on w4)] ++ restore).
    split.
    { simpl. rewrite T5. simpl. rewrite T, T2. simpl.
      now rewrite <- !app_assoc. }
    assert (Hpost : forall calls,
               scan (Some (now w2, gc_on w2, calls))
                    (EvTimer (now w4) (gc_on w4) :: restore)
               = ([mkSample (gc_on w2) calls (gc_on w4) (now w4 - now w2)], None)).
    { intros calls.
      change (EvTimer (now w4) (gc_on w4) :: restore)
        with ([EvTimer (now w4) (gc_on w4)] ++ restore).
      rewrite scan_app. simpl. now rewrite Hquiet. }
    unfold samples_of.
    rewrite scan_app, Hpre. simpl. rewrite scan_app, S. simpl.
    rewrite Hpost. simpl.
    rewrite G, G2.
    split; [|split; [exact I|reflexivity]].
    constructor; [|constructor].
    split; [reflexivity|]. split; [apply repeat_all|reflexivity].
  - destruct (Hrestore w4) as (w5 & -> & T5).
    exists ([EvGcDisable; setup_ev; EvTimer (now w2) (gc_on w2)] ++ l ++ restore).
    split.
    { simpl. rewrite T5, T, T2. simpl. now rewrite <- !app_assoc. }
    unfold samples_of.
    rewrite scan_app, Hpre. simpl. rewrite scan_app, S. simpl.
    rewrite Hquiet. simpl. rewrite G2.
    split; [constructor|]. split; [|discriminate].
    split; [reflexivity|apply repeat_all].
  - exists ([EvGcDisable; setup_ev; EvTimer (now w2) (gc_on w2)] ++ l).
    split.
    { simpl. rewrite T, T2. simpl. now rewrite <- !app_assoc. }
    unfold samples_of.
    rewrite scan_app, Hpre. simpl. rewrite S. simpl. rewrite G2.
    split; [constructor|]. split; [|discriminate].
    split; [reflexivity|apply repeat_all].
Qed.

Lemma timed_repeat_from (flag : bool) (f : M Value) (Hf : body_only f)
    (number : Z) (n : nat) :
  forall r w, timed_at flag (repeat_from (bench_timer flag f) number n r) w.
Proof.
  induction n as [|n IH]; intros r w.
  - apply timed_unread. apply unread_refl.
  - change (repeat_from (bench_timer flag f) number (S n) r)
      with (bind (Timer_timeit (bench_timer flag f) number)
              (fun t => repeat_from (bench_timer flag f) number n (r ++ [t]))).
    apply timed_bind; [now apply timed_timeit|]. intros t w1 _. apply IH.
Qed.

Lemma timed_autorange_for (flag : bool) (f : M Value) (Hf : body_only f)
    (i : Z) (next : M (Z * Z)) (Hnext : forall w, timed_at flag next w)
    (js : list Z) :
  forall w, timed_at flag (autorange_for (bench_timer flag f) i js next) w.
Proof.
  induction js as [|j js IH]; intros w.
  - apply Hnext.
  - change (autorange_for (bench_timer flag f) i (j :: js) next)
      with (bind (Timer_timeit (bench_timer flag f) (i * j))
              (fun time_taken =>
                 if reaches_threshold time_taken then ret (i * j, time_taken)
                 else autorange_for (bench_timer flag f) i js next)).
    apply timed_bind; [now apply timed_timeit|]. intros t w1 _.
    destruct (reaches_threshold t); [|apply IH].
    apply timed_unread. apply unread_refl.
Qed.

Lemma timed_autorange_from (flag : bool) (f : M Value) (Hf : body_only f)
    (fuel : nat) :
  forall i w, timed_at flag (autorange_from fuel (bench_timer flag f) i) w.
Proof.
  induction fuel as [|fuel IH]; intros i w.
  - apply timed_unread. apply unread_refl.
  - change (autorange_from (S fuel) (bench_timer flag f) i)
      with (autorange_for (bench_timer flag f) i [1; 2; 5]
              (autorange_from fuel (bench_timer flag f) (i * 10))).
    apply timed_autorange_for; [exact Hf|]. intros w0. apply IH.
Qed.

Lemma timed_run (fuel : nat) (benchmark_spec : BenchmarkSpec) (w : World) :
  timed_at (py_gc_disabled benchmark_spec) (run_benchmark fuel benchmark_spec) w.
Proof.
  rewrite run_benchmark_phases.
  apply timed_bind.
  { apply timed_unread.
    destruct (create_changes_log_only benchmark_spec w) as (_ & l & T & Hb & _).
    exists l. split; [exact T|]. now apply body_untimed. }
  intros f w1 Hc. destruct (create_ok _ _ _ _ Hc) as (Hf & _).
  apply timed_bind; [apply timed_unread; now apply profiling_unread|].
  intros pk w2 _. unfold timing_phase.
  apply timed_bind; [now apply timed_timeit|]. intros tw w3 _.
  apply timed_bind; [now apply timed_autorange_from|]. intros [b tc] w4 _.
  apply timed_bind; [now apply timed_repeat_from|]. intros ts w5 _.
  apply timed_unread. apply unread_refl.
Qed.

(** After its sample every [timeit] puts back a collector it found
    enabled, so a run that returns leaves it enabled. *)
Lemma run_returns_enabled (fuel : nat) (benchmark_spec : BenchmarkSpec)
    (w w' : World) (r : BenchmarkResult) :
  run_benchmark fuel benchmark_spec w = (Ok r, w') ->
  gc_on w = true -> gc_on w' = true.
Proof.
  intros Hrun Hgc. rewrite run_benchmark_phases in Hrun.
  apply bind_Ok in Hrun as (f & w1 & Hc & Hrun).
  destruct (create_ok _ _ _ _ Hc) as (Hf & _ & _ & _ & Hgc1 & _).
  apply bind_Ok in Hrun as (pk & w2 & Hmem & Htim).
  assert (Hgc2 : gc_on w2 = true).
  { unfold profiling_phase in Hmem. destruct _pypy.
    - inversion Hmem; subst. congruence.
    - apply bind_Ok in Hmem as (p & w2' & Hmem & Hret).
      inversion Hret; subst w2' pk; clear Hret.
      now apply (trace_memory_ok f Hf) in Hmem as (_ & _ & _ & Hg & _). }
  pose proof (R_timing_phase stays_enabled stays_enabled_refl stays_enabled_trans
                (bench_timer (py_gc_disabled benchmark_spec) f)
                (timeit_stays_enabled _ f Hf) fuel
                (get_warmups benchmark_spec) (get_iterations benchmark_spec)
                pk w2) as H.
  rewrite Htim in H. now apply H.
Qed.

(** C8, as the code has it. However the run ends, every sample in its log
    was taken with the collector as py_gc_disabled asks: off when the flag
    is set, on otherwise, at the first reading of the clock, at every
    invocation of the test function and at the second reading; so was the
    part of a sample that a failure cut short. When the run returns, the
    samples are the warm-up, the calibration attempts and the repetitions,
    none is left unfinished, and the setting has not outlived them: a
    collector that was enabled at the call is enabled at the end, whatever
    the flag. *)
Theorem C8_collector_setting_in_samples (fuel : nat)
    (benchmark_spec : BenchmarkSpec) (w : World) :
  let flag := py_gc_disabled benchmark_spec in
  exists l,
    trace (snd (run_benchmark fuel benchmark_spec w)) = trace w ++ l /\
    Forall (sample_under flag) (samples_of l) /\
    pending_under flag (snd (scan None l)) /\
    forall r, fst (run_benchmark fuel benchmark_spec w) = Ok r ->
      snd (scan None l) = None /\
      (exists tw attempts tc,
         samples_of l
         = sample_at flag (get_warmups benchmark_spec) tw
           :: map (fun nt => sample_at flag (fst nt) (snd nt)) attempts
           ++ sample_at flag (batch_size r) tc
           :: map (sample_at flag (batch_size r)) (timings r)) /\
      (gc_on w = true -> gc_on (snd (run_benchmark fuel benchmark_spec w)) = true).
Proof.
  intros flag.
  destruct (timed_run fuel benchmark_spec w) as (l & T & S & P & N).
  exists l. split; [exact T|]. split; [exact S|]. split; [exact P|].
  intros r Hr. split; [now apply (N r)|].
  destruct (run_benchmark fuel benchmark_spec w) as [res w'] eqn:Hrun.
  simpl in Hr, T. subst res. split.
  - destruct (run_benchmark_ok _ _ _ _ _ Hrun)
      as (l' & tw & att & tc & T' & S' & _).
    rewrite T in T'. apply app_inv_head in T'. subst l'.
    now exists tw, att, tc.
  - simpl. exact (run_returns_enabled _ _ _ _ _ Hrun).
Qed.

End SampleFacts.

(** ** The peak of one invocation *)

Section PeakFacts.

Context {X Value : Type} {_format : Format} {platform : Platform}.

Local Abbreviation World := (@World X).
Local Abbreviation M := (@M X).
Local Abbreviation BenchmarkSpec := (@BenchmarkSpec X Value).

Lemma traced_after_peak_mono (l : list Cost) :
  forall m, (snd m <= snd (traced_after m l))%N.
Proof.
  induction l as [|c l IH]; intros m; simpl.
  - lia.
  - etransitivity; [|apply IH]. unfold account. simpl. lia.
Qed.

Lemma traced_after_peak_covers (c : Cost) (l : list Cost) :
  In c l -> forall m, (c_high c <= snd (traced_after m l))%N.
Proof.
  induction l as [|c0 l IH]; intros Hin m; simpl in *; [now elim Hin|].
  destruct Hin as [->|Hin]; [|now apply IH].
  etransitivity; [|apply traced_after_peak_mono].
  unfold account. simpl. lia.
Qed.

(** X14. For a run that returns, the result's peak memory is None on PyPy.
    On CPython, when the run starts with tracing off, it is the peak of the
    costs paid by exactly one invocation of the test function, the traced
    one: the most that was allocated at one moment while it ran, counted
    from zero. It is not negative, and not below the peak of any single
    cost the invocation paid. *)
Theorem X14_peak_of_the_traced_invocation (fuel : nat)
    (benchmark_spec : BenchmarkSpec) (w w' : World) (r : BenchmarkResult) :
  run_benchmark fuel benchmark_spec w = (Ok r, w') ->
  (_pypy = true -> peak_memory_usage r = None) /\
  (_pypy = false -> tracing w = false ->
   exists test_fn w1 costs,
     _create_test_fun benchmark_spec w = (Ok test_fn, w1) /\
     ledger (snd (invoke test_fn (snd (tracemalloc_start (snd (gc_disable w1))))))
     = ledger w1 ++ costs /\
     peak_memory_usage r = Some (peak_of costs) /\
     0 <= peak_of costs /\
     forall c, In c costs -> Z.of_N (c_high c) <= peak_of costs).
Proof.
  intros Hrun. rewrite run_benchmark_phases in Hrun.
  apply bind_Ok in Hrun as (f & w1 & Hc & Hrun).
  destruct (create_ok _ _ _ _ Hc) as (Hb & _ & _ & _ & _ & Htr1).
  pose proof (create_accounted _ _ _ _ Hc) as Hacc.
  apply bind_Ok in Hrun as (pk & w2 & Hm & Htim).
  unfold timing_phase in Htim.
  apply bind_Ok in Htim as (tw & w3 & _ & Htim).
  apply bind_Ok in Htim as ([b tc] & w4 & _ & Htim).
  apply bind_Ok in Htim as (ts & w5 & _ & Hret).
  inversion Hret; subst; clear Hret. simpl.
  unfold profiling_phase in Hm. split.
  - intros Hpy. rewrite Hpy in Hm. now inversion Hm.
  - intros Hpy Htr. rewrite Hpy in Hm.
    apply bind_Ok in Hm as (p & w2' & Hmem & Hret).
    inversion Hret; subst pk w2'; clear Hret.
    destruct (profiled_costs f Hb Hacc w1 w2 p Hmem) as (costs & _ & Hled & Hp).
    rewrite Htr1, Htr in Hp.
    exists f, w1, costs. split; [exact Hc|]. split; [exact Hled|].
    subst p. split; [reflexivity|]. unfold peak_of. split; [lia|].
    intros c Hin. apply N2Z.inj_le. now apply traced_after_peak_covers.
Qed.

End PeakFacts.

(** ** The claims on the concrete setting *)

Section Witnesses.

Import Example.

Lemma steady_never_raises : never_raises (loader_of steady).
Proof. intros r H. destruct H; simpl; eauto. Defined.

Lemma steady_measurable : measurable (loader_of steady).
Proof. intros r H. destruct H; simpl; lia. Defined.

Lemma C1_witness :
  (length (timings slow_result) = 3%nat /\
   exists l earlier,
     trace (snd slow_run) = trace start ++ l /\
     samples_of l = earlier ++ map (sample_at true 2) [6; 6; 6]) /\
  (exists r w',
     run_benchmark (_format:=formats) (platform:=cpython) 1 file_read start
     = (Ok r, w')).
Proof.
  split.
  - apply (proj1 (C1_timings_per_iteration (_format:=formats) (platform:=cpython)
                    3 slow_write start) slow_result (snd slow_run)).
    vm_compute. reflexivity.
  - apply (proj2 (C1_timings_per_iteration (_format:=formats) (platform:=cpython)
                    0 file_read start)).
    + reflexivity.
    + intros _. vm_compute. discriminate.
    + exact steady_never_raises.
    + exact steady_measurable.
Defined.

(** C1 as stated fails twice over. The selector accepts (buffer, write,
    load_dump) over a loader/dumper that raises, and the run raises,
    whatever the rounds of calibration allowed; and for an iteration count
    of -1 no list of timings has that many entries. *)
Lemma C1_counterexample :
  accepted (_format:=formats) failing_write start /\
  ~ one_timing_per_iteration (_format:=formats) (platform:=cpython)
      failing_write start /\
  accepted (_format:=formats) negative_iterations start /\
  ~ one_timing_per_iteration (_format:=formats) (platform:=cpython)
      negative_iterations start.
Proof.
  assert (A1 : accepted (_format:=formats) failing_write start)
    by (eexists _, _; reflexivity).
  assert (A2 : accepted (_format:=formats) negative_iterations start)
    by (eexists _, _; reflexivity).
  split; [exact A1|]. split; [|split; [exact A2|]].
  - intros H. destruct (H A1) as (fuel & r & w' & Hrun & _).
    assert (Hraise : fst (run_benchmark (_format:=formats) (platform:=cpython)
                            fuel failing_write start)
                     = Raise (CollaboratorError "cannot serialize"))
      by reflexivity.
    rewrite Hrun in Hraise. discriminate Hraise.
  - intros H. destruct (H A2) as (fuel & r & w' & _ & Hlen).
    simpl in Hlen. lia.
Qed.

Lemma C2_witness :
  _create_test_fun (_format:=formats) network_read start
  = (Raise (NotImplementedError ["network"; "read"; "load_dump"]), start) /\
  run_benchmark (_format:=formats) (platform:=cpython) 1 network_read start
  = (Raise (NotImplementedError ["network"; "read"; "load_dump"]), start).
Proof.
  apply (C2_unsupported_combination (_format:=formats) (platform:=cpython)
           1 network_read start).
  reflexivity.
Defined.

Lemma C3_witness :
  exists test_fn w1,
    _create_test_fun (_format:=formats) buffer_read start = (Ok test_fn, w1) /\
    trace w1 = trace start ++ [EvOpen "in.ion"; EvRead "in.ion"; EvClose "in.ion"] /\
    ledger w1 = ledger start ++ [io_cost start (IoOpen "in.ion") (ext start);
                                 io_cost start (IoRead "in.ion") (ext start);
                                 io_cost start (IoClose "in.ion") (ext start)] /\
    forall w2,
      let reply := loads (loader_of steady) in_ion (ext w2) in
      fst (test_fn w2)
      = match outcome (fst reply) with inl v => Ok v | inr e => Raise e end /\
      ext (snd (test_fn w2)) = snd reply /\
      trace (snd (test_fn w2)) = trace w2 ++ [EvCall OpLoads] /\
      ledger (snd (test_fn w2)) = ledger w2 ++ [reply_cost (fst reply)] /\
      files (snd (test_fn w2)) = files w2.
Proof.
  apply (C3_buffer_read_reads_once (_format:=formats) buffer_read start in_ion);
    reflexivity.
Defined.

Lemma C4_witness :
  exists test_fn,
    _create_test_fun (_format:=formats) file_write start = (Ok test_fn, start) /\
    let f := mkTmp 0 false in
    let reply := dump (loader_of failing) 7%nat f (ext start) in
    exists w_open w_dumped,
      TemporaryFile false start = (Ok f, w_open) /\
      ~ In (tmp_id f) (live_tmps start) /\
      live_tmps w_open = tmp_id f :: live_tmps start /\
      call (OpDump (tmp_id f)) (dump (loader_of failing) 7%nat f) w_open
      = (Raise (CollaboratorError "cannot serialize"), w_dumped) /\
      ext w_dumped = snd reply /\
      In (tmp_id f) (live_tmps w_dumped) /\
      tmp_close f w_dumped = (Ok tt, snd (test_fn start)) /\
      fst (test_fn start) = Raise (CollaboratorError "cannot serialize") /\
      live_tmps (snd (test_fn start)) = live_tmps start /\
      next_tmp (snd (test_fn start)) = S (next_tmp start) /\
      trace (snd (test_fn start))
      = trace start ++ [EvTmpOpen (tmp_id f) false;
                        EvCall (OpDump (tmp_id f)); EvTmpClose (tmp_id f)].
Proof.
  destruct (C4_file_write_temporary_file (_format:=formats) file_write start
              eq_refl eq_refl eq_refl) as (test_fn & Hcreate & Hcall).
  exists test_fn. split; [exact Hcreate|].
  apply (Hcall start). constructor.
Defined.

(** C5 on a run that follows a failed one. The run over [hungry_write]
    raises from the traced invocation and leaves tracemalloc tracing, with
    a peak of 9000 bytes. The next run, of [buffer_write], reports 9000,
    while the one invocation it traced paid a single cost that peaks at
    100 bytes, which is what the same run reports from a fresh state. *)
Theorem C5_peak_of_an_earlier_run :
  fst (run_benchmark (_format:=formats) (platform:=cpython) 1 hungry_write start)
  = Raise (CollaboratorError "out of memory") /\
  tracing after_failed_run = true /\
  fst (run_benchmark (_format:=formats) (platform:=cpython) 1 buffer_write
         after_failed_run)
  = Ok (mkBenchmarkResult [3; 3; 3; 3; 3] 1 (Some 9000)) /\
  _create_test_fun (_format:=formats) buffer_write after_failed_run
  = (Ok steady_dumps, after_failed_run) /\
  (let w := snd (tracemalloc_start (snd (gc_disable after_failed_run))) in
   ledger (snd (invoke steady_dumps w)) = ledger w ++ [mkCost 3 100 0]) /\
  peak_of [mkCost 3 100 0] = 100 /\
  fst (run_benchmark (_format:=formats) (platform:=cpython) 1 buffer_write start)
  = Ok (mkBenchmarkResult [3; 3; 3; 3; 3] 1 (Some 100)).
Proof. vm_compute. repeat split; reflexivity. Qed.

Lemma C6_witness :
  exists test_fn w1,
    _create_test_fun (_format:=formats) file_read start = (Ok test_fn, w1) /\
    forall w, files w = files start ->
      exists p w' body costs g,
        _trace_memory_allocation test_fn w = (Ok p, w') /\
        trace w' = trace w ++ [EvGcDisable; EvTraceStart; EvInvoke false true]
                           ++ body ++ [EvGetTraced; EvTraceStop; EvGcEnable] /\
        forallb body_event body = true /\
        count_invocations ([EvGcDisable; EvTraceStart; EvInvoke false true]
                           ++ body ++ [EvGetTraced; EvTraceStop; EvGcEnable])
        = 1%nat /\
        gc_on w' = true /\ tracing w' = false /\
        ledger w' = ledger w ++ costs /\
        test_call (_format:=formats) file_read w = Some g /\
        In (reply_cost (fst (g (ext w)))) costs /\
        p = Z.of_N (snd (traced_after
                           (if tracing w then (traced_cur w, traced_peak w)
                            else (0%N, 0%N)) costs)).
Proof.
  apply (C6_memory_profiling_steps (_format:=formats) file_read start).
  - reflexivity.
  - intros _. vm_compute. discriminate.
  - exact steady_never_raises.
Defined.

Lemma C7_witness :
  exists w',
    _trace_memory_allocation failing_dumps start
    = (Raise (CollaboratorError "cannot serialize"), w') /\
    tracing w' = true /\ gc_on w' = false /\
    exists body,
      trace w' = trace start ++ [EvGcDisable; EvTraceStart; EvInvoke false true]
                             ++ body /\
      forallb body_event body = true.
Proof.
  eexists.
  apply (C7_failure_skips_cleanup (_format:=formats) failing_write start start
           failing_dumps start); reflexivity.
Defined.

(** C8 on a run with the flag set and on one with the flag not set. *)
Lemma C8_witness :
  (exists l,
     trace (snd slow_run) = trace start ++ l /\
     Forall (sample_under true) (samples_of l) /\
     pending_under true (snd (scan None l)) /\
     forall r, fst slow_run = Ok r ->
       snd (scan None l) = None /\
       (exists tw attempts tc,
          samples_of l
          = sample_at true 2 tw
            :: map (fun nt => sample_at true (fst nt) (snd nt)) attempts
            ++ sample_at true (batch_size r) tc
            :: map (sample_at true (batch_size r)) (timings r)) /\
       (gc_on start = true -> gc_on (snd slow_run) = true)) /\
  (exists l,
     trace (snd slow_quick_run) = trace start ++ l /\
     Forall (sample_under false) (samples_of l) /\
     pending_under false (snd (scan None l)) /\
     forall r, fst slow_quick_run = Ok r ->
       snd (scan None l) = None /\
       (exists tw attempts tc,
          samples_of l
          = sample_at false 0 tw
            :: map (fun nt => sample_at false (fst nt) (snd nt)) attempts
            ++ sample_at false (batch_size r) tc
            :: map (sample_at false (batch_size r)) (timings r)) /\
       (gc_on start = true -> gc_on (snd slow_quick_run) = true)).
Proof.
  split.
  - exact (C8_collector_setting_in_samples (_format:=formats) (platform:=cpython)
             3 slow_write start).
  - exact (C8_collector_setting_in_samples (_format:=formats) (platform:=cpython)
             3 slow_write_quick start).
Defined.

(** C8 as stated fails. With the flag set, the run of [slow_write] ends
    with the collector enabled, and in its log gc.enable() follows the
    first sample; with the flag not set, in the log of [slow_write_quick]
    gc.disable() follows the first sample. *)
Lemma C8_counterexample :
  ~ setting_persists slow_write start (snd slow_run) /\
  gc_on (snd slow_run) = true /\
  ~ setting_persists slow_write_quick start (snd slow_quick_run).
Proof.
  split; [|split; [reflexivity|]].
  - intros (Hgc & _). vm_compute in Hgc. discriminate Hgc.
  - intros (_ & l & T & Hl).
    assert (E : l = trace (snd slow_quick_run)) by (rewrite T; reflexivity).
    subst l. vm_compute in Hl. discriminate Hl.
Qed.

Lemma C9_witness :
  1 <= batch_size slow_result /\
  exists l earlier tc,
    trace (snd slow_run) = trace start ++ l /\
    samples_of l
    = earlier
      ++ sample_at true (batch_size slow_result) tc
      :: map (sample_at true (batch_size slow_result)) (timings slow_result) /\
    (threshold <= inject_Z tc)%Q.
Proof.
  apply (C9_batch_size_calibrated (_format:=formats) (platform:=cpython)
           3 slow_write start (snd slow_run) slow_result).
  vm_compute. reflexivity.
Defined.

Lemma C10_witness :
  (exists w0, slow_zero_run = (Ok slow_zero_result, w0)) /\
  (timings slow_zero_result = [] /\
   (exists p, peak_memory_usage slow_zero_result = Some p /\ 0 <= p) /\
   1 <= batch_size slow_zero_result /\
   exists l earlier tc,
     trace (snd slow_zero_run) = trace start ++ l /\
     samples_of l = earlier ++ [sample_at true (batch_size slow_zero_result) tc] /\
     (threshold <= inject_Z tc)%Q) /\
  (exists r w',
     run_benchmark (_format:=formats) (platform:=cpython) 1 no_iterations start
     = (Ok r, w')).
Proof.
  split; [|split].
  - apply (proj1 (C10_zero_iterations (_format:=formats) (platform:=cpython)
                    3 slow_no_iterations start eq_refl) 3 slow_result (snd slow_run)).
    vm_compute. reflexivity.
  - apply (proj1 (proj2 (C10_zero_iterations (_format:=formats) (platform:=cpython)
                           3 slow_no_iterations start eq_refl))
             slow_zero_result (snd slow_zero_run)).
    vm_compute. reflexivity.
  - apply (proj2 (proj2 (C10_zero_iterations (_format:=formats) (platform:=cpython)
                           0 no_iterations start eq_refl))).
    + reflexivity.
    + intros H. discriminate H.
    + exact steady_never_raises.
    + exact steady_measurable.
Defined.

(** C7 as stated fails: the test function the selector builds for
    (buffer, write, load_dump) over a loader/dumper that raises leaves the
    profiler with tracing on and the collector off. *)
Lemma C7_counterexample :
  _create_test_fun (_format:=formats) failing_write start
  = (Ok failing_dumps, start) /\
  ~ cleanup_on_failure failing_dumps start.
Proof.
  split; [reflexivity|].
  intros H.
  specialize (H (CollaboratorError "cannot serialize")
                (snd (_trace_memory_allocation failing_dumps start)) eq_refl).
  vm_compute in H. destruct H as [H _]. discriminate H.
Qed.

End Witnesses.

(** ** The further properties on the concrete setting *)

Section MoreWitnesses.

Import Example.

Lemma failing_always_raises :
  always_raises (loader_of failing) (CollaboratorError "cannot serialize").
Proof. intros r H. destruct H; reflexivity. Defined.

Lemma X1_witness :
  exists test_fn,
    _create_test_fun (_format:=formats) file_read empty_disk
    = (Ok test_fn, empty_disk) /\
    forall w2,
      (files w2 "in.ion" = None ->
       test_fn w2 = (Raise (FileNotFoundError "in.ion"), log (EvOpen "in.ion") w2)) /\
      (forall content, files w2 "in.ion" = Some content ->
         let r := fst (load (loader_of steady) (mkFile "in.ion" content) (ext w2)) in
         fst (test_fn w2)
         = match outcome r with inl v => Ok v | inr e => Raise e end /\
         trace (snd (test_fn w2))
         = trace w2 ++ [EvOpen "in.ion"; EvCall OpLoad; EvClose "in.ion"]).
Proof.
  apply (X1_file_read_opens_per_call (_format:=formats) file_read empty_disk);
    reflexivity.
Defined.

Lemma X2_witness :
  exists test_fn w1,
    _create_test_fun (_format:=formats) file_write_steady start = (Ok test_fn, w1) /\
    forall w2, files w2 = files start ->
      exists l, trace (snd (test_fn w2)) = trace w2 ++ l /\
                forallb body_event l = true /\
                count_calls l = 1%nat.
Proof.
  apply (X2_one_collaborator_call_per_invocation (_format:=formats)
           file_write_steady start).
  - reflexivity.
  - intros H. discriminate H.
Defined.

Lemma X3_witness :
  _create_test_fun (_format:=formats) buffer_read empty_disk
  = (Raise (FileNotFoundError "in.ion"), log (EvOpen "in.ion") empty_disk) /\
  run_benchmark (_format:=formats) (platform:=cpython) 1 buffer_read empty_disk
  = (Raise (FileNotFoundError "in.ion"), log (EvOpen "in.ion") empty_disk).
Proof.
  apply (X3_buffer_read_missing_file (_format:=formats) (platform:=cpython)
           1 buffer_read empty_disk); reflexivity.
Defined.

Lemma X4_witness :
  exists w',
    run_benchmark (_format:=formats) (platform:=cpython) 1 file_read empty_disk
    = (Raise (FileNotFoundError "in.ion"), w') /\
    tracing w' = true /\ gc_on w' = false.
Proof.
  apply (X4_file_read_missing_file (_format:=formats) (platform:=cpython)
           1 file_read empty_disk); reflexivity.
Defined.

Lemma X6_witness : gc_on (snd slow_run) = true /\ tracing (snd slow_run) = false.
Proof.
  apply (X6_collector_enabled_after_run (_format:=formats) (platform:=cpython)
           3 slow_write start (snd slow_run) slow_result).
  - reflexivity.
  - vm_compute. reflexivity.
Defined.

Lemma X7_witness :
  untraced start
    (snd (run_benchmark (_format:=formats) (platform:=pypy) 1 no_iterations start)) /\
  stays_enabled start
    (snd (run_benchmark (_format:=formats) (platform:=pypy) 1 no_iterations start)).
Proof.
  apply (X7_pypy_run_leaves_tracing_and_collector (_format:=formats)
           (platform:=pypy) 1 no_iterations start).
  reflexivity.
Defined.

Lemma X8_witness :
  live_tmps (snd (run_benchmark (_format:=formats) (platform:=cpython) 1
                    file_write_steady start))
  = live_tmps start /\
  tmp_wf (snd (run_benchmark (_format:=formats) (platform:=cpython) 1
                 file_write_steady start)).
Proof.
  apply (X8_no_temporary_file_left (_format:=formats) (platform:=cpython)
           1 file_write_steady start).
  constructor.
Defined.

Lemma X9_witness :
  exists r w',
    run_benchmark (_format:=formats) (platform:=cpython) 1 file_read start
    = (Ok r, w') /\
    batch_size r = 1 /\
    Forall (fun t => 1 <= t) (timings r).
Proof.
  apply (X9_measurable_calls_give_batch_size_one (_format:=formats)
           (platform:=cpython) 0 file_read start).
  - reflexivity.
  - intros _. vm_compute. discriminate.
  - exact steady_never_raises.
  - exact steady_measurable.
Defined.

Lemma X10_witness : Forall (fun t => 0 <= t) (timings slow_result).
Proof.
  apply (X10_timings_not_negative (_format:=formats) (platform:=cpython)
           3 slow_write start (snd slow_run) slow_result).
  vm_compute. reflexivity.
Defined.

Lemma X11_witness :
  fst (run_benchmark (_format:=formats) (platform:=cpython) 1 failing_write start)
  = Raise (CollaboratorError "cannot serialize").
Proof.
  apply (X11_loader_failure_propagates (_format:=formats) (platform:=cpython)
           0 failing_write start).
  - reflexivity.
  - intros H. discriminate H.
  - exact failing_always_raises.
Defined.

Lemma X12_witness :
  peak_memory_usage slow_quick_result = peak_memory_usage slow_result.
Proof.
  apply (X12_peak_memory_ignores_timing_settings (_format:=formats)
           (platform:=cpython) 3 3 slow_write 0 1 false start
           (snd slow_run) (snd slow_quick_run) slow_result slow_quick_result).
  - vm_compute. reflexivity.
  - vm_compute. reflexivity.
Defined.

Lemma X13_witness :
  exists (k : nat) j,
    (k < 3)%nat /\ In j [1; 2; 5] /\ batch_size slow_result = j * 10 ^ Z.of_nat k.
Proof.
  apply (X13_batch_size_on_schedule (_format:=formats) (platform:=cpython)
           3 slow_write start (snd slow_run) slow_result).
  vm_compute. reflexivity.
Defined.

Lemma X14_witness :
  exists test_fn w1 costs,
    _create_test_fun (_format:=formats) file_read start = (Ok test_fn, w1) /\
    ledger (snd (invoke test_fn (snd (tracemalloc_start (snd (gc_disable w1))))))
    = ledger w1 ++ costs /\
    peak_memory_usage file_read_result = Some (peak_of costs) /\
    0 <= peak_of costs /\
    forall c, In c costs -> Z.of_N (c_high c) <= peak_of costs.
Proof.
  apply (X14_peak_of_the_traced_invocation (_format:=formats) (platform:=cpython)
           1 file_read start
           (snd (run_benchmark (_format:=formats) (platform:=cpython) 1
                   file_read start))
           file_read_result).
  - vm_compute. reflexivity.
  - reflexivity.
  - reflexivity.
Defined.

End MoreWitnesses.
